(** * nm_widget: the CSS filter scripts and the icon generator

    A shallow embedding of the four Python scripts of the repository:

    - [extract_clean_css.py]  (module [ExtractCleanCss])
    - [clean_css.py]          (module [CleanCss])
    - [create_clean_css.py]   (module [CreateCleanCss])
    - [generate_icons.py]     (module [GenerateIcons])

    A Python [str] is a [string]; its characters are the code points
    below 256.  A list of lines is a [list string].  Brace counters are
    Python integers, hence [Z]. *)

From Stdlib Require Import List String Ascii ZArith Lia Bool Arith DecimalString.
Import ListNotations.

Local Open Scope string_scope.
Local Open Scope list_scope.

(** ** Python string operations *)

Module PyStr.

(** [str.isspace] on one character, for the code points below 256:
    TAB, LF, VT, FF, CR, FS, GS, RS, US, SPACE, NEL and NBSP. *)
Definition is_space (c : ascii) : bool :=
  let n := nat_of_ascii c in
  ((9 <=? n)%nat && (n <=? 13)%nat) || ((28 <=? n)%nat && (n <=? 32)%nat)
  || (n =? 133)%nat || (n =? 160)%nat.

(** [s.lstrip()] *)
Fixpoint lstrip (s : string) : string :=
  match s with
  | String c s' => if is_space c then lstrip s' else s
  | EmptyString => EmptyString
  end.

(** [s.rstrip()] *)
Fixpoint rstrip (s : string) : string :=
  match s with
  | EmptyString => EmptyString
  | String c s' =>
      match rstrip s' with
      | EmptyString => if is_space c then EmptyString else String c EmptyString
      | r => String c r
      end
  end.

(** [s.strip()] *)
Definition strip (s : string) : string := rstrip (lstrip s).

(** [s.startswith(p)] *)
Definition startswith (p s : string) : bool := String.prefix p s.

(** [sub in s] *)
Fixpoint contains (sub s : string) : bool :=
  String.prefix sub s
  || match s with
     | EmptyString => false
     | String _ s' => contains sub s'
     end.

(** [s.count(c)] for a pattern [c] of one character. *)
Fixpoint count (c : ascii) (s : string) : Z :=
  match s with
  | EmptyString => 0
  | String d s' => ((if Ascii.eqb c d then 1 else 0) + count c s')%Z
  end.

(** [bool(s)]: a string is true when it is not empty. *)
Definition truthy (s : string) : bool :=
  match s with EmptyString => false | _ => true end.

(** [sep.join(parts)] *)
Definition join (sep : string) (parts : list string) : string :=
  String.concat sep parts.

(** [s.split(c)] for a separator [c] of one character: never empty,
    [cur] is the field being read. *)
Fixpoint split_from (c : ascii) (cur : string) (s : string) : list string :=
  match s with
  | EmptyString => [cur]
  | String d s' =>
      if Ascii.eqb c d then cur :: split_from c EmptyString s'
      else split_from c (cur ++ String d EmptyString)%string s'
  end.

Definition split (c : ascii) (s : string) : list string :=
  split_from c EmptyString s.

Definition LF : ascii := ascii_of_nat 10.
Definition lbrace : ascii := "{"%char.
Definition rbrace : ascii := "}"%char.

End PyStr.

Import PyStr.

(** ** extract_clean_css.py *)

Module ExtractCleanCss.

(** The two variables the loop of [extract_clean_css] updates besides its
    cursor. *)
Record state := mkState {
  keep_lines : list string;
  skip_until_next_section : bool
}.

Definition set_skip (b : bool) (st : state) : state :=
  mkState (keep_lines st) b.

Definition append_line (l : string) (st : state) : state :=
  mkState (keep_lines st ++ [l]) (skip_until_next_section st).

(** [line.startswith('/*') and not line.startswith('/* ')] *)
Definition is_section_header (line : string) : bool :=
  startswith "/*" line && negb (startswith "/* " line).

(** ['skin-presets' in line or 'skin-custom' in line or 'skin-grid' in line] *)
Definition is_skin_section (line : string) : bool :=
  contains "skin-presets" line || contains "skin-custom" line
  || contains "skin-grid" line.

(** ['.nativemimic-dark-mode' in line and
     '.nativemimic-speech-controls.nativemimic-dark-mode' not in line] *)
Definition is_general_dark_mode (line : string) : bool :=
  contains ".nativemimic-dark-mode" line
  && negb (contains ".nativemimic-speech-controls.nativemimic-dark-mode" line).

(** ['.nativemimic-skin-' in line] *)
Definition is_skin_selector (line : string) : bool :=
  contains ".nativemimic-skin-" line.

(** The inner [while i < len(lines)] loop: [rest] is [lines[i:]].  On
    [break] the outer loop goes on ([k]) from the cursor; when the input
    ends first, the outer loop finds [i = len(lines)] and ends too
    ([eof]). *)
Fixpoint skip_block {A : Type} (k : list string -> A) (eof : A)
    (brace_count : Z) (rest : list string) : A :=
  match rest with
  | [] => eof
  | current_line :: rest' =>
      let brace_count :=
        (brace_count + count lbrace current_line
         - count rbrace current_line)%Z in
      if (brace_count <=? 0)%Z then k rest'
      else skip_block k eof brace_count rest'
  end.

(** The outer [while i < len(lines)] loop; [lines] is [lines[i:]]. *)
Fixpoint loop (st : state) (lines : list string) {struct lines} : state :=
  match lines with
  | [] => st
  | raw :: rest =>
      let line := strip raw in
      let st := if is_section_header line then set_skip false st else st in
      let st := if is_skin_section line then set_skip true st else st in
      if is_general_dark_mode line then skip_block (loop st) st 0 lines
      else if is_skin_selector line then skip_block (loop st) st 0 lines
      else
        let st :=
          if negb (skip_until_next_section st) then append_line raw st
          else st in
        loop st rest
  end.

(** [keep_lines] when the loop ends, for [lines = content.split('\n')]. *)
Definition filter_lines (lines : list string) : list string :=
  keep_lines (loop (mkState [] false) lines).

(** [cleaned_content], the text written to the output file, for the text
    [content] read from the input file. *)
Definition extract_clean_css (content : string) : string :=
  join (String LF EmptyString) (filter_lines (split LF content)).

(** The three counts printed at the end: original, cleaned, removed. *)
Definition report (content : string) : Z * Z * Z :=
  let lines := split LF content in
  let keep := filter_lines lines in
  (Z.of_nat (List.length lines), Z.of_nat (List.length keep),
   (Z.of_nat (List.length lines) - Z.of_nat (List.length keep))%Z).

End ExtractCleanCss.

(** ** clean_css.py *)

Module CleanCss.

(** [should_remove_selector(selector_line)] *)
Definition should_remove_selector (selector_line : string) : bool :=
  if contains ".nativemimic-skin-" selector_line then true
  else if contains ".nativemimic-dark-mode" selector_line then
    if negb (contains ".nativemimic-speech-controls.nativemimic-dark-mode"
               selector_line)
    then true else false
  else false.

Record state := mkState {
  cleaned_lines : list string;
  skip_block : bool;
  brace_count : Z;
  current_selector_lines : list string
}.

(** How one pass through the first part of the loop body ends: with
    [continue], or by falling through to the rest of the body. *)
Inductive flow := Continue (st : state) | Fallthrough (st : state).

(** [line and (line.startswith('.') or line.startswith('#') or ',' in line)] *)
Definition is_selector_line (line : string) : bool :=
  truthy line
  && (startswith "." line || startswith "#" line || contains "," line).

(** The body of [if not skip_block:], for the line [raw = lines[i]] and
    [line = raw.strip()]. *)
Definition build_selector (st : state) (raw line : string) : flow :=
  if is_selector_line line then
    let sel := current_selector_lines st ++ [raw] in
    if contains "{" line then
      let full_selector := join "" sel in
      if should_remove_selector full_selector then
        Continue (mkState (cleaned_lines st) true 1 [])
      else
        Continue (mkState (cleaned_lines st ++ sel) (skip_block st)
                    (brace_count st) [])
    else
      Continue (mkState (cleaned_lines st) (skip_block st)
                  (brace_count st) sel)
  else
    match current_selector_lines st with
    | [] => Fallthrough st
    | pending =>
        Fallthrough (mkState (cleaned_lines st ++ pending) (skip_block st)
                       (brace_count st) [])
    end.

(** One iteration of the [while] loop; every path advances [i] by one. *)
Definition step (st : state) (raw : string) : state :=
  let line := strip raw in
  match (if negb (skip_block st) then build_selector st raw line
         else Fallthrough st) with
  | Continue st' => st'
  | Fallthrough st =>
      if skip_block st then
        let bc := (brace_count st + count lbrace line
                   - count rbrace line)%Z in
        if (bc <=? 0)%Z then
          mkState (cleaned_lines st) false 0 (current_selector_lines st)
        else
          mkState (cleaned_lines st) true bc (current_selector_lines st)
      else
        mkState (cleaned_lines st ++ [raw]) (skip_block st) (brace_count st)
          (current_selector_lines st)
  end.

Definition init : state := mkState [] false 0 [].

Definition loop (st : state) (lines : list string) : state :=
  fold_left step lines st.

(** [cleaned_lines] when the loop ends, for [lines = f.readlines()];
    [writelines] writes their concatenation. *)
Definition clean_css (lines : list string) : list string :=
  cleaned_lines (loop init lines).

Definition written (lines : list string) : string :=
  join "" (clean_css lines).

End CleanCss.

(** ** create_clean_css.py *)

Module CreateCleanCss.

(** [should_remove_block(block_content)] *)
Definition should_remove_block (block_content : string) : bool :=
  if contains "nativemimic-skin-" block_content then true
  else if contains ".nativemimic-speech-controls.nativemimic-dark-mode"
            block_content then false
  else if contains ".nativemimic-dark-mode" block_content then true
  else false.

Record state := mkState {
  cleaned_lines : list string;
  skip_block : bool;
  block_depth : Z;
  current_block_lines : list string
}.

Definition NL : string := String LF EmptyString.

(** The body of the [for line in lines] loop. *)
Definition step (st : state) (line : string) : state :=
  let stripped_line := strip line in
  if contains "{" line then
    let depth := (block_depth st + count lbrace line)%Z in
    let cur := current_block_lines st ++ [line] in
    let block_content := join NL cur in
    if should_remove_block block_content then
      mkState (cleaned_lines st) true depth cur
    else
      mkState (if negb (skip_block st) then cleaned_lines st ++ cur
               else cleaned_lines st)
        (skip_block st) depth []
  else if contains "}" line then
    let depth := (block_depth st - count rbrace line)%Z in
    let st :=
      if skip_block st then
        if (depth <=? 0)%Z then mkState (cleaned_lines st) false depth []
        else mkState (cleaned_lines st) true depth (current_block_lines st)
      else
        mkState (cleaned_lines st ++ [line]) false depth
          (current_block_lines st) in
    if (depth <=? 0)%Z then
      mkState (cleaned_lines st) (skip_block st) depth []
    else st
  else
    if skip_block st then st
    else if (block_depth st >? 0)%Z then
      mkState (cleaned_lines st ++ [line]) (skip_block st) (block_depth st)
        (current_block_lines st)
    else
      let cur := current_block_lines st ++ [line] in
      if negb (startswith "/*" stripped_line) && truthy stripped_line then
        if should_remove_block (join NL cur) then
          mkState (cleaned_lines st) (skip_block st) (block_depth st) []
        else
          mkState (cleaned_lines st ++ cur) (skip_block st) (block_depth st) []
      else if startswith "/*" stripped_line || negb (truthy stripped_line) then
        mkState (cleaned_lines st ++ cur) (skip_block st) (block_depth st) []
      else
        mkState (cleaned_lines st) (skip_block st) (block_depth st) cur.

Definition init : state := mkState [] false 0 [].

Definition loop (st : state) (lines : list string) : state :=
  fold_left step lines st.

(** [# Add any remaining lines] *)
Definition finish (st : state) : list string :=
  match current_block_lines st with
  | [] => cleaned_lines st
  | cur => if negb (skip_block st) then cleaned_lines st ++ cur
           else cleaned_lines st
  end.

(** [cleaned_lines] at the end, for [lines = content.split('\n')]. *)
Definition filter_lines (lines : list string) : list string :=
  finish (loop init lines).

(** [cleaned_content], the text written to the output file. *)
Definition create_clean_css (content : string) : string :=
  join NL (filter_lines (split LF content)).

End CreateCleanCss.

(** ** generate_icons.py *)

Module GenerateIcons.

(** A font object: one of the two [ImageFont.truetype] results or the one
    of [ImageFont.load_default]. *)
Inductive font :=
| Truetype (path : string) (font_size : Z)
| DefaultFont.

(** What has been drawn on a canvas. [Text x y None] is a [draw.text]
    call without a [font] argument.  The colours and the glyph are the
    same constants in every call and are left out. *)
Inductive draw_op :=
| RoundedRectangle (x0 y0 x1 y1 radius : Z)
| Text (x y : Z) (f : option font).

Record image := mkImage {
  img_size : Z;
  drawn : list draw_op
}.

Definition draw (op : draw_op) (img : image) : image :=
  mkImage (img_size img) (drawn img ++ [op]).

(** The exceptions of the model, named after the call that raises. *)
Inductive exn :=
| CanvasError | FontError | BBoxError | DrawError | SaveError.

(** The imaging library and the file system as the script sees them:
    for every call, whether it returns ([true], [Some]) or raises.
    [font_size_of size] is [int(size * 0.6)], a floating-point product. *)
Record pillow := mkPillow {
  new_image : Z -> bool;
  rounded_rectangle : Z -> bool;
  font_size_of : Z -> Z;
  truetype : string -> Z -> bool;
  load_default : bool;
  textbbox : font -> option (Z * Z * Z * Z);
  text : Z -> Z -> option font -> bool;
  save : string -> bool
}.

(** A computation that returns a value or raises. *)
Definition result (A : Type) : Type := (exn + A)%type.

Definition ret {A : Type} (a : A) : result A := inr a.
Definition raise {A : Type} (e : exn) : result A := inl e.

Definition bind {A B : Type} (m : result A) (k : A -> result B) : result B :=
  match m with
  | inl e => inl e
  | inr a => k a
  end.

(** [try: body / except: handler] with a bare [except]. *)
Definition try_except {A : Type} (body handler : result A) : result A :=
  match body with
  | inl _ => handler
  | inr a => inr a
  end.

Notation "x <- m ;; k" := (bind m (fun x => k))
  (at level 61, m at next level, right associativity).

Definition call (ok : bool) (e : exn) : result unit :=
  if ok then ret tt else raise e.

(** The three nested [try] blocks that pick the font. *)
Definition load_font (P : pillow) (font_size : Z) : result font :=
  try_except
    (_ <- call (truetype P "Arial.ttf" font_size) FontError ;;
     ret (Truetype "Arial.ttf" font_size))
    (try_except
       (_ <- call (truetype P "/System/Library/Fonts/Arial.ttf" font_size)
               FontError ;;
        ret (Truetype "/System/Library/Fonts/Arial.ttf" font_size))
       (_ <- call (load_default P) FontError ;;
        ret DefaultFont)).

(** The body of the outer [try]: font, bounding box, centred glyph. *)
Definition draw_centered (P : pillow) (size : Z) (img : image)
  : result image :=
  let font_size := font_size_of P size in
  f <- load_font P font_size ;;
  match textbbox P f with
  | None => raise BBoxError
  | Some (b0, b1, b2, b3) =>
      let text_width := (b2 - b0)%Z in
      let text_height := (b3 - b1)%Z in
      let x := ((size - text_width) / 2)%Z in
      let y := ((size - text_height) / 2 - 2)%Z in
      _ <- call (text P x y (Some f)) DrawError ;;
      ret (draw (Text x y (Some f)) img)
  end.

(** The handler of the outer [try]. *)
Definition draw_fallback (P : pillow) (size : Z) (img : image)
  : result image :=
  let x := (size / 4)%Z in
  let y := (size / 4)%Z in
  _ <- call (text P x y None) DrawError ;;
  ret (draw (Text x y None) img).

(** The files written and the lines printed so far. *)
Record world := mkWorld {
  files : list (string * image);
  console : list string
}.

(** How a call of the script ends: it returns, or an exception leaves
    it; the world is as the call left it in both cases. *)
Inductive outcome :=
| Returned (w : world)
| Propagated (e : exn) (w : world).

(** [img.save(filename, 'PNG')] and the [print] after it. *)
Definition save_and_print (P : pillow) (img : image) (filename : string)
    (w : world) : outcome :=
  if save P filename then
    Returned (mkWorld (files w ++ [(filename, img)])
                (console w ++ ["Created " ++ filename]%string))
  else Propagated SaveError w.

(** The canvas with the lime green rounded rectangle on it. *)
Definition canvas (size : Z) : image :=
  draw (RoundedRectangle 0 0 (size - 1) (size - 1) (size / 5))
    (mkImage size []).

(** [Image.new], [ImageDraw.Draw] and [draw.rounded_rectangle], before
    the [try]. *)
Definition background (P : pillow) (size : Z) : result image :=
  _ <- call (new_image P size) CanvasError ;;
  _ <- call (rounded_rectangle P size) CanvasError ;;
  ret (canvas size).

(** The canvas with the glyph on it: the outer [try] and its handler. *)
Definition glyph (P : pillow) (size : Z) (img : image) : result image :=
  try_except (draw_centered P size img) (draw_fallback P size img).

(** [create_icon(size, filename)] *)
Definition create_icon (P : pillow) (size : Z) (filename : string)
    (w : world) : outcome :=
  match (img <- background P size ;; glyph P size img) with
  | inl e => Propagated e w
  | inr img => save_and_print P img filename w
  end.

(** [f"icon{size}.png"] *)
Definition icon_name (size : Z) : string :=
  ("icon" ++ NilZero.string_of_int (Z.to_int size) ++ ".png")%string.

(** [for size in sizes: create_icon(size, f"icon{size}.png")] *)
Fixpoint for_sizes (P : pillow) (sizes : list Z) (w : world) : outcome :=
  match sizes with
  | [] => Returned w
  | size :: sizes' =>
      match create_icon P size (icon_name size) w with
      | Returned w' => for_sizes P sizes' w'
      | Propagated e w' => Propagated e w'
      end
  end.

Definition sizes : list Z := [16; 32; 48; 128]%Z.

(** The [__main__] block. *)
Definition main (P : pillow) (w : world) : outcome :=
  match for_sizes P sizes w with
  | Returned w' =>
      Returned (mkWorld (files w')
        (console w' ++
         ["All icons created! Remove the old .svg files and reload the extension."]))
  | Propagated e w' => Propagated e w'
  end.

End GenerateIcons.

(** ** Notions used to state the properties *)

(** [select mask l]: the elements of [l] whose flag in [mask] is set, in
    the order of [l]. *)
Fixpoint select {A : Type} (mask : list bool) (l : list A) : list A :=
  match mask, l with
  | b :: mask', x :: l' =>
      if b then x :: select mask' l' else select mask' l'
  | _, _ => []
  end.

(** The number of cleared flags of a mask: the lines that were dropped. *)
Definition dropped (mask : list bool) : nat :=
  List.length (List.filter negb mask).

(** What one line adds to a brace counter. *)
Definition brace_delta (l : string) : Z :=
  (count lbrace l - count rbrace l)%Z.

(** The counter after the lines [ls], from the value [c]. *)
Definition running (c : Z) (ls : list string) : Z :=
  fold_left (fun c l => (c + brace_delta l)%Z) ls c.

(** The counter is positive after each line of [ls], from the value [c]. *)
Fixpoint stays_open (c : Z) (ls : list string) : bool :=
  match ls with
  | [] => true
  | l :: ls' =>
      (0 <? c + brace_delta l)%Z && stays_open (c + brace_delta l)%Z ls'
  end.

(** The substrings [extract_clean_css] looks for. *)
Definition extract_markers : list string :=
  ["skin-presets"; "skin-custom"; "skin-grid";
   ".nativemimic-dark-mode"; ".nativemimic-skin-"].

(** The substrings [should_remove_selector] looks for. *)
Definition selector_markers : list string :=
  [".nativemimic-skin-"; ".nativemimic-dark-mode"].

(** No string of [markers] occurs in [text]. *)
Definition marker_free (markers : list string) (text : string) : bool :=
  forallb (fun m => negb (contains m text)) markers.

(** The inner loop of [extract_clean_css] alone: the lines it leaves. *)
Definition skip_rest (brace_count : Z) (rest : list string) : list string :=
  ExtractCleanCss.skip_block (fun r => r) [] brace_count rest.

(** The flag updates [extract_clean_css] makes on a line before it looks
    for a block to skip. *)
Definition enter (st : ExtractCleanCss.state) (line : string)
  : ExtractCleanCss.state :=
  let st := if ExtractCleanCss.is_section_header line
            then ExtractCleanCss.set_skip false st else st in
  if ExtractCleanCss.is_skin_section line
  then ExtractCleanCss.set_skip true st else st.

(** The line starts one of the two brace-counted skips. *)
Definition triggers_skip (line : string) : bool :=
  ExtractCleanCss.is_general_dark_mode line
  || ExtractCleanCss.is_skin_selector line.

(** The end of the loop body on a line that starts no brace-counted skip. *)
Definition keep_or_drop (st : ExtractCleanCss.state) (raw : string)
  : ExtractCleanCss.state :=
  if negb (ExtractCleanCss.skip_until_next_section st)
  then ExtractCleanCss.append_line raw st else st.

(** In [create_clean_css] the buffer of block lines is empty whenever no
    block is being skipped. *)
Definition buffer_inv (st : CreateCleanCss.state) : Prop :=
  CreateCleanCss.skip_block st = false ->
  CreateCleanCss.current_block_lines st = [].

(** A line as [readlines] gives it, with its line break. *)
Definition line (s : string) : string := (s ++ String LF EmptyString)%string.

(** The selector markers of the removal patterns. *)
Definition skin_marker : string := ".nativemimic-skin-".
Definition dark_marker : string := ".nativemimic-dark-mode".
Definition speech_dark_marker : string :=
  ".nativemimic-speech-controls.nativemimic-dark-mode".

(** The two rule blocks of the specification's example. *)
Definition dark_block : string := ".nativemimic-dark-mode { color: black; }".
Definition speech_dark_block : string :=
  ".nativemimic-speech-controls.nativemimic-dark-mode { color: white; }".

(** A library in which no font can be had and no text drawn without one,
    and every other call returns. *)
Definition no_font_pillow : GenerateIcons.pillow :=
  GenerateIcons.mkPillow (fun _ => true) (fun _ => true)
    (fun size => (size * 6 / 10)%Z)
    (fun _ _ => false) false (fun _ => None)
    (fun _ _ f => match f with Some _ => true | None => false end)
    (fun _ => true).

(** A library in which only the default font can be loaded and every
    file can be written but [unwritable]. *)
Definition pillow_without (unwritable : string) : GenerateIcons.pillow :=
  GenerateIcons.mkPillow (fun _ => true) (fun _ => true)
    (fun size => (size * 6 / 10)%Z)
    (fun _ _ => false) true (fun _ => Some (0, 0, 6, 9)%Z)
    (fun _ _ _ => true)
    (fun filename => negb (String.eqb filename unwritable)).

(** A library in which the default font can be loaded but the bounding
    box of a text cannot be measured. *)
Definition no_bbox_pillow : GenerateIcons.pillow :=
  GenerateIcons.mkPillow (fun _ => true) (fun _ => true)
    (fun size => (size * 6 / 10)%Z)
    (fun _ _ => false) true (fun _ => None)
    (fun _ _ _ => true)
    (fun _ => true).

Definition empty_world : GenerateIcons.world := GenerateIcons.mkWorld [] [].

(** [line.startswith('.') or line.startswith('#') or ',' in line] *)
Definition looks_like_selector (line : string) : bool :=
  startswith "." line || startswith "#" line || contains "," line.

(** A line on which [extract_clean_css] finds none of its markers. *)
Definition unmarked (l : string) : bool :=
  negb (ExtractCleanCss.is_skin_section (strip l))
  && negb (triggers_skip (strip l)).

(** The substrings [should_remove_block] looks for. *)
Definition block_markers : list string :=
  ["nativemimic-skin-"; ".nativemimic-dark-mode"].

(** In [clean_css], after the lines [done]: what is written is selected
    from the lines read before those of the buffer, and the buffer is
    empty during a skip. *)
Definition clean_inv (st : CleanCss.state) (done : list string) : Prop :=
  (CleanCss.skip_block st = true -> CleanCss.current_selector_lines st = [])
  /\ exists before mask,
       done = before ++ CleanCss.current_selector_lines st
       /\ List.length mask = List.length before
       /\ CleanCss.cleaned_lines st = select mask before.

(** Case analysis on every test of a goal. *)
Ltac split_ifs :=
  repeat match goal with
         | |- context [if ?b then _ else _] => destruct b eqn:?
         end.

(** ** Facts on the string operations *)

Section StringFacts.

Local Open Scope string_scope.

Lemma append_nil_r (s : string) : s ++ "" = s.
Proof. induction s; simpl; congruence. Qed.

Lemma append_assoc (a b c : string) : (a ++ b) ++ c = a ++ (b ++ c).
Proof. induction a; simpl; congruence. Qed.

Lemma prefix_append (p b : string) : String.prefix p (p ++ b) = true.
Proof.
  induction p as [|c p IH]; simpl.
  - destruct b; reflexivity.
  - destruct (ascii_dec c c); [assumption | congruence].
Qed.

Lemma prefix_inv (p s : string) :
  String.prefix p s = true -> exists b, s = p ++ b.
Proof.
  revert s; induction p as [|c p IH]; intros s H.
  - exists s; reflexivity.
  - destruct s as [|d s]; simpl in H; [discriminate|].
    destruct (ascii_dec c d) as [->|]; [|discriminate].
    destruct (IH _ H) as [b ->]. exists b; reflexivity.
Qed.

Lemma contains_prefix (m s : string) :
  String.prefix m s = true -> contains m s = true.
Proof.
  intros H.
  replace (contains m s)
    with (String.prefix m s
          || match s with "" => false | String _ s' => contains m s' end)
    by (destruct s; reflexivity).
  rewrite H; reflexivity.
Qed.

Lemma contains_intro (a m b : string) : contains m (a ++ m ++ b) = true.
Proof.
  induction a as [|c a IH]; simpl.
  - apply contains_prefix, prefix_append.
  - rewrite IH. apply orb_true_r.
Qed.

Lemma contains_inv (m s : string) :
  contains m s = true -> exists a b, s = a ++ m ++ b.
Proof.
  induction s as [|c s IH]; cbn [contains]; intros H.
  - rewrite orb_false_r in H. apply prefix_inv in H as [b ->].
    exists "", b; reflexivity.
  - apply orb_true_iff in H as [H|H].
    + apply prefix_inv in H as [b ->]. exists "", b; reflexivity.
    + destruct (IH H) as (a & b & ->). exists (String c a), b; reflexivity.
Qed.

(** An occurrence in a part is an occurrence in the whole. *)
Lemma contains_within (m a s b : string) :
  contains m s = true -> contains m (a ++ s ++ b) = true.
Proof.
  intros H. apply contains_inv in H as (a' & b' & ->).
  replace (a ++ (a' ++ m ++ b') ++ b) with ((a ++ a') ++ m ++ (b' ++ b))
    by (rewrite !append_assoc; reflexivity).
  apply contains_intro.
Qed.

Lemma contains_false_within (m a s b : string) :
  contains m (a ++ s ++ b) = false -> contains m s = false.
Proof.
  intros H. destruct (contains m s) eqn:E; [|reflexivity].
  rewrite (contains_within m a s b E) in H. discriminate.
Qed.

Lemma lstrip_suffix (s : string) : exists a, s = a ++ lstrip s.
Proof.
  induction s as [|c s [a IH]]; simpl.
  - exists ""; reflexivity.
  - destruct (is_space c).
    + exists (String c a). simpl. congruence.
    + exists "". reflexivity.
Qed.

Lemma rstrip_prefix (s : string) : exists b, s = rstrip s ++ b.
Proof.
  induction s as [|c s [b IH]]; simpl.
  - exists ""; reflexivity.
  - destruct (rstrip s) as [|d r] eqn:E.
    + destruct (is_space c).
      * exists (String c s). reflexivity.
      * exists b. simpl in *. congruence.
    + exists b. simpl in *. congruence.
Qed.

Lemma strip_within (s : string) : exists a b, s = a ++ strip s ++ b.
Proof.
  unfold strip. destruct (lstrip_suffix s) as [a Ha].
  destruct (rstrip_prefix (lstrip s)) as [b Hb].
  exists a, b. rewrite <- Hb. exact Ha.
Qed.

Lemma contains_strip (m s : string) :
  contains m (strip s) = true -> contains m s = true.
Proof.
  intros H. destruct (strip_within s) as (a & b & E).
  rewrite E. apply contains_within, H.
Qed.

Lemma contains_strip_false (m s : string) :
  contains m s = false -> contains m (strip s) = false.
Proof.
  intros H. destruct (contains m (strip s)) eqn:E; [|reflexivity].
  apply contains_strip in E. congruence.
Qed.

Lemma join_cons (sep x y : string) (ys : list string) :
  join sep (x :: y :: ys) = x ++ sep ++ join sep (y :: ys).
Proof. reflexivity. Qed.

Lemma split_from_cons (c : ascii) (cur s : string) :
  exists x xs, split_from c cur s = x :: xs.
Proof.
  revert cur; induction s as [|d s IH]; intros cur; simpl.
  - eauto.
  - destruct (Ascii.eqb c d); eauto.
Qed.

(** [sep.join(s.split(sep))] gives [s] back. *)
Lemma join_split_from (c : ascii) (cur s : string) :
  join (String c "") (split_from c cur s) = cur ++ s.
Proof.
  revert cur; induction s as [|d s IH]; intros cur; simpl.
  - symmetry; apply append_nil_r.
  - destruct (Ascii.eqb_spec c d) as [<-|Hne].
    + destruct (split_from_cons c "" s) as (x & xs & E).
      specialize (IH ""). rewrite E in *. rewrite join_cons, IH.
      reflexivity.
    + rewrite IH, append_assoc. reflexivity.
Qed.

Lemma join_split (c : ascii) (s : string) :
  join (String c "") (split c s) = s.
Proof. apply (join_split_from c "" s). Qed.

(** Every field of a split is a part of the text. *)
Lemma split_from_within (c : ascii) (cur s l : string) :
  In l (split_from c cur s) -> exists a b, cur ++ s = a ++ l ++ b.
Proof.
  revert cur; induction s as [|d s IH]; intros cur; simpl.
  - intros [<-|[]]. exists "", "". rewrite !append_nil_r. reflexivity.
  - destruct (Ascii.eqb c d).
    + intros [<-|H].
      * exists "", (String d s). reflexivity.
      * destruct (IH _ H) as (a & b & E). simpl in E.
        exists (cur ++ String d a), b. rewrite E, append_assoc. reflexivity.
    + intros H. destruct (IH _ H) as (a & b & E).
      exists a, b. rewrite <- E, append_assoc. reflexivity.
Qed.

Lemma split_within (c : ascii) (s l : string) :
  In l (split c s) -> exists a b, s = a ++ l ++ b.
Proof. apply (split_from_within c "" s l). Qed.


Lemma join_empty_cons (x : string) (xs : list string) :
  join "" (x :: xs) = x ++ join "" xs.
Proof.
  destruct xs; [symmetry; apply append_nil_r | reflexivity].
Qed.

Lemma join_empty_app (a b : list string) :
  join "" (a ++ b) = join "" a ++ join "" b.
Proof.
  induction a as [|x a IH]; [reflexivity|].
  cbn [app]. rewrite !join_empty_cons, IH, append_assoc. reflexivity.
Qed.

Lemma marker_free_within (markers : list string) (a s b : string) :
  marker_free markers (a ++ s ++ b) = true -> marker_free markers s = true.
Proof.
  unfold marker_free. rewrite !forallb_forall. intros H m Hm.
  specialize (H m Hm). apply negb_true_iff in H. apply negb_true_iff.
  eapply contains_false_within, H.
Qed.


Lemma is_space_not_eqb (c d : ascii) :
  is_space c = false -> is_space d = true -> Ascii.eqb c d = false.
Proof.
  intros Hc Hd. destruct (Ascii.eqb_spec c d); congruence.
Qed.

Lemma count_lstrip (c : ascii) (s : string) :
  is_space c = false -> count c (lstrip s) = count c s.
Proof.
  intros Hc. induction s as [|d s IH]; simpl; [reflexivity|].
  destruct (is_space d) eqn:Hd; simpl; [|reflexivity].
  rewrite (is_space_not_eqb c d Hc Hd), IH. reflexivity.
Qed.

Lemma count_rstrip (c : ascii) (s : string) :
  is_space c = false -> count c (rstrip s) = count c s.
Proof.
  intros Hc. induction s as [|d s IH]; simpl; [reflexivity|].
  destruct (rstrip s) as [|e r] eqn:E.
  - destruct (is_space d) eqn:Hd; simpl in *.
    + rewrite (is_space_not_eqb c d Hc Hd). lia.
    + lia.
  - change (count c (String d (String e r)))
      with ((if Ascii.eqb c d then 1 else 0) + count c (String e r))%Z.
    rewrite IH. reflexivity.
Qed.

(** Trimming a line removes no brace. *)
Lemma count_strip (c : ascii) (s : string) :
  is_space c = false -> count c (strip s) = count c s.
Proof.
  intros Hc. unfold strip. rewrite count_rstrip, count_lstrip; auto.
Qed.

Lemma brace_delta_strip (s : string) : brace_delta (strip s) = brace_delta s.
Proof.
  unfold brace_delta. rewrite !count_strip; reflexivity.
Qed.

End StringFacts.

(** ** Facts on masks *)

Section MaskFacts.

Context {A : Type}.

Lemma select_app (m1 m2 : list bool) (l1 l2 : list A) :
  List.length m1 = List.length l1 ->
  select (m1 ++ m2) (l1 ++ l2) = select m1 l1 ++ select m2 l2.
Proof.
  revert l1; induction m1 as [|b m1 IH]; intros [|x l1] H; simpl in *;
    try discriminate; [reflexivity|].
  injection H as H. rewrite (IH _ H). destruct b; reflexivity.
Qed.

Lemma select_all_false (n : nat) (l : list A) :
  select (repeat false n) l = [].
Proof.
  revert l; induction n as [|n IH]; intros [|x l]; simpl; auto.
Qed.

Lemma select_length (mask : list bool) (l : list A) :
  List.length mask = List.length l ->
  (List.length (select mask l) + dropped mask = List.length l)%nat.
Proof.
  unfold dropped.
  revert l; induction mask as [|b m IH]; intros [|x l] H; simpl in *;
    try discriminate; [reflexivity|].
  injection H as H. specialize (IH _ H). destruct b; simpl; lia.
Qed.

End MaskFacts.

(** ** Facts on [extract_clean_css] *)

Section ExtractFacts.

Import ExtractCleanCss.

Lemma skip_block_rest {A : Type} (k : list string -> A) (bc : Z)
    (ls : list string) :
  skip_block k (k []) bc ls = k (skip_rest bc ls).
Proof.
  unfold skip_rest. revert bc; induction ls as [|l ls IH]; intros bc; simpl.
  - reflexivity.
  - destruct (_ <=? 0)%Z; [reflexivity | apply IH].
Qed.

Lemma skip_rest_cons (bc : Z) (l : string) (ls : list string) :
  skip_rest bc (l :: ls) =
  if (bc + brace_delta l <=? 0)%Z then ls
  else skip_rest (bc + brace_delta l) ls.
Proof.
  unfold skip_rest, brace_delta. cbn [skip_block].
  replace (bc + (count lbrace l - count rbrace l))%Z
    with (bc + count lbrace l - count rbrace l)%Z by lia.
  reflexivity.
Qed.

(** The inner loop leaves a suffix of its input, a proper one when there
    is input. *)
Lemma skip_rest_suffix (bc : Z) (ls : list string) :
  exists consumed, ls = consumed ++ skip_rest bc ls
                   /\ (ls <> [] -> consumed <> []).
Proof.
  revert bc; induction ls as [|l ls IH]; intros bc.
  - exists []. split; [reflexivity | congruence].
  - rewrite skip_rest_cons. destruct (_ <=? 0)%Z.
    + exists [l]. split; [reflexivity | discriminate].
    + destruct (IH (bc + brace_delta l)%Z) as (c & E & _).
      exists (l :: c). split; [simpl; congruence | discriminate].
Qed.

(** While the counter stays positive the inner loop goes on. *)
Lemma skip_rest_open (bc : Z) (body rest : list string) :
  stays_open bc body = true ->
  skip_rest bc (body ++ rest) = skip_rest (running bc body) rest.
Proof.
  revert bc; induction body as [|l body IH]; intros bc H; simpl in *.
  - reflexivity.
  - apply andb_true_iff in H as [H1 H2]. rewrite skip_rest_cons.
    apply Z.ltb_lt in H1.
    destruct (Z.leb_spec (bc + brace_delta l) 0); [lia|].
    apply IH, H2.
Qed.

(** It ends on the first line that brings the counter to zero or below. *)
Lemma skip_rest_close (bc : Z) (body : list string) (last : string)
    (rest : list string) :
  stays_open bc body = true ->
  (running bc body + brace_delta last <= 0)%Z ->
  skip_rest bc (body ++ last :: rest) = rest.
Proof.
  intros H1 H2. rewrite skip_rest_open by assumption.
  rewrite skip_rest_cons. destruct (Z.leb_spec (running bc body + brace_delta last) 0); [reflexivity | lia].
Qed.

(** One turn of the outer loop. *)
Lemma extract_loop_cons (st : state) (raw : string) (rest : list string) :
  loop st (raw :: rest) =
  if triggers_skip (strip raw)
  then loop (enter st (strip raw)) (skip_rest 0 (raw :: rest))
  else loop (keep_or_drop (enter st (strip raw)) raw) rest.
Proof.
  cbn [loop]. fold (enter st (strip raw)). unfold triggers_skip.
  rewrite <- !(skip_block_rest (loop (enter st (strip raw)))).
  destruct (is_general_dark_mode (strip raw)); [reflexivity|].
  destruct (is_skin_selector (strip raw)); reflexivity.
Qed.

(** Induction along the positions the outer loop visits. *)
Lemma extract_loop_visit_ind (P : state -> list string -> Prop) :
  (forall st, P st []) ->
  (forall st raw rest,
      triggers_skip (strip raw) = true ->
      P (enter st (strip raw)) (skip_rest 0 (raw :: rest)) ->
      P st (raw :: rest)) ->
  (forall st raw rest,
      triggers_skip (strip raw) = false ->
      P (keep_or_drop (enter st (strip raw)) raw) rest ->
      P st (raw :: rest)) ->
  forall st ls, P st ls.
Proof.
  intros Hnil Hskip Hstep st ls.
  remember (List.length ls) as n eqn:Hn.
  assert (Hle : (List.length ls <= n)%nat) by lia. clear Hn.
  revert st ls Hle. induction n as [|n IH]; intros st [|raw rest] Hle;
    simpl in Hle; try apply Hnil; try lia.
  destruct (triggers_skip (strip raw)) eqn:T.
  - apply Hskip; [assumption|]. apply IH.
    destruct (skip_rest_suffix 0 (raw :: rest)) as (c & E & Hc).
    destruct c as [|x c]; [exfalso; apply Hc; congruence|].
    apply (f_equal (@List.length string)) in E.
    rewrite length_app in E. simpl in E. lia.
  - apply Hstep; [assumption|]. apply IH. lia.
Qed.

Lemma keep_lines_enter (st : state) (line : string) :
  keep_lines (enter st line) = keep_lines st.
Proof.
  unfold enter. destruct (is_section_header line), (is_skin_section line);
    reflexivity.
Qed.

Lemma skip_rest_app (bc : Z) (a b : list string) :
  (exists a1 a2, a = a1 ++ a2 /\ skip_rest bc (a ++ b) = a2 ++ b
                 /\ (a <> [] -> a1 <> []))
  \/ (exists b1 b2, b = b1 ++ b2 /\ skip_rest bc (a ++ b) = b2).
Proof.
  revert bc; induction a as [|l a IH]; intros bc.
  - right. destruct (skip_rest_suffix bc b) as (c & E & _).
    exists c, (skip_rest bc b). split; [exact E | reflexivity].
  - cbn [app]. rewrite skip_rest_cons. destruct (_ <=? 0)%Z.
    + left. exists [l], a. repeat split; discriminate.
    + destruct (IH (bc + brace_delta l)%Z)
        as [(a1 & a2 & E & R & _)|(b1 & b2 & E & R)].
      * left. exists (l :: a1), a2. subst a. repeat split; try assumption.
        discriminate.
      * right. exists b1, b2. split; assumption.
Qed.

Lemma enter_skipping (st : state) (line : string) :
  skip_until_next_section st = true ->
  is_section_header line = false ->
  enter st line = st.
Proof.
  intros Hs Hh. unfold enter. rewrite Hh.
  destruct st as [k b]; simpl in Hs; subst b.
  destruct (is_skin_section line); reflexivity.
Qed.

Lemma keep_or_drop_skipping (st : state) (raw : string) :
  skip_until_next_section st = true -> keep_or_drop st raw = st.
Proof. intros H. unfold keep_or_drop. rewrite H. reflexivity. Qed.

(** While the flag is set and no section header comes, nothing is kept
    and the flag stays set; a brace-counted skip may run past the lines
    [mid]. *)
Lemma extract_loop_skipping (mid : list string) :
  forall (st : state) (rest : list string),
  skip_until_next_section st = true ->
  Forall (fun l => is_section_header (strip l) = false) mid ->
  exists consumed rest',
    rest = consumed ++ rest' /\ loop st (mid ++ rest) = loop st rest'.
Proof.
  remember (List.length mid) as n eqn:Hn.
  assert (Hle : (List.length mid <= n)%nat) by lia. clear Hn.
  revert mid Hle. induction n as [|n IH]; intros [|l mid] Hle st rest Hs Hf;
    simpl in Hle; try lia; try (exists [], rest; split; reflexivity).
  inversion Hf as [|? ? Hl Hmid]; subst.
  change ((l :: mid) ++ rest) with (l :: (mid ++ rest)).
  rewrite extract_loop_cons, (enter_skipping st _ Hs Hl), (keep_or_drop_skipping _ _ Hs).
  destruct (triggers_skip (strip l)).
  - change (l :: mid ++ rest) with ((l :: mid) ++ rest).
    destruct (skip_rest_app 0 (l :: mid) rest)
      as [(a1 & a2 & E & R & Hne)|(b1 & b2 & E & R)]; rewrite R.
    + assert (Hlen : (List.length a2 <= n)%nat).
      { apply (f_equal (@List.length string)) in E.
        rewrite length_app in E. simpl in E.
        destruct a1; [exfalso; apply Hne; [discriminate | reflexivity]|].
        simpl in E. lia. }
      apply (IH a2 Hlen st rest Hs).
      rewrite E in Hf. apply Forall_app in Hf. apply Hf.
    + exists b1, b2. split; [assumption | reflexivity].
  - apply IH; [lia | assumption | assumption].
Qed.

(** A brace-counted skip that starts on the line at the cursor discards
    the lines up to and with the first one after which the counter is at
    zero or below: [init ++ [last]] is the block, its first line the one
    that starts the skip. *)
Lemma extract_loop_block_skipped (st : state) (init : list string) (last : string)
    (rest : list string) :
  triggers_skip (strip (hd last init)) = true ->
  stays_open 0 init = true ->
  (running 0 init + brace_delta last <= 0)%Z ->
  loop st (init ++ last :: rest) = loop (enter st (strip (hd last init))) rest.
Proof.
  intros T Ho Hc.
  assert (E : exists raw tl, init ++ last :: rest = raw :: tl
                             /\ hd last init = raw).
  { destruct init; simpl; eauto. }
  destruct E as (raw & tl & E & Hraw). rewrite Hraw in *.
  rewrite E, extract_loop_cons, T, <- E, skip_rest_close by assumption.
  reflexivity.
Qed.

(** As long as the counter stays positive the skip goes on. *)
Lemma extract_loop_block_open (st : state) (raw : string) (body rest : list string) :
  triggers_skip (strip raw) = true ->
  stays_open 0 (raw :: body) = true ->
  loop st (raw :: body ++ rest)
  = loop (enter st (strip raw)) (skip_rest (running 0 (raw :: body)) rest).
Proof.
  intros T Ho. rewrite extract_loop_cons, T.
  change (raw :: body ++ rest) with ((raw :: body) ++ rest).
  rewrite skip_rest_open by assumption. reflexivity.
Qed.

(** The lines kept are selected from the input by a mask. *)
Lemma extract_loop_mask (st : state) (ls : list string) :
  exists mask,
    List.length mask = List.length ls
    /\ keep_lines (loop st ls) = keep_lines st ++ select mask ls.
Proof.
  revert st ls. apply extract_loop_visit_ind.
  - intros st. exists []. split; [reflexivity|]. simpl. rewrite app_nil_r.
    reflexivity.
  - intros st raw rest T (mask & Hl & Hk).
    destruct (skip_rest_suffix 0 (raw :: rest)) as (c & E & _).
    rewrite extract_loop_cons, T, Hk, keep_lines_enter.
    remember (skip_rest 0 (raw :: rest)) as r eqn:Hr. clear Hr.
    exists (repeat false (List.length c) ++ mask). rewrite E. split.
    + rewrite !length_app, repeat_length. lia.
    + rewrite select_app by apply repeat_length.
      rewrite select_all_false. reflexivity.
  - intros st raw rest T (mask & Hl & Hk).
    rewrite extract_loop_cons, T, Hk. unfold keep_or_drop.
    destruct (skip_until_next_section (enter st (strip raw))); simpl.
    + exists (false :: mask). split; [simpl; congruence|].
      rewrite keep_lines_enter. reflexivity.
    + exists (true :: mask). split; [simpl; congruence|].
      rewrite keep_lines_enter, <- app_assoc. reflexivity.
Qed.

Lemma enter_clean (st : state) (line : string) :
  skip_until_next_section st = false ->
  is_skin_section line = false ->
  enter st line = st.
Proof.
  intros Hs Hk. unfold enter. rewrite Hk.
  destruct st as [k b]; simpl in Hs; subst b.
  destruct (is_section_header line); reflexivity.
Qed.

(** On lines without a marker the loop keeps everything. *)
Lemma extract_loop_clean (ls : list string) :
  forall st,
  skip_until_next_section st = false ->
  Forall (fun l => is_skin_section (strip l) = false
                   /\ triggers_skip (strip l) = false) ls ->
  loop st ls = mkState (keep_lines st ++ ls) false.
Proof.
  induction ls as [|l ls IH]; intros st Hs Hf.
  - simpl. rewrite app_nil_r. destruct st; simpl in *; congruence.
  - inversion Hf as [|? ? [Hk Ht] Hls]; subst.
    rewrite extract_loop_cons, Ht, (enter_clean st _ Hs Hk).
    unfold keep_or_drop. rewrite Hs. simpl.
    rewrite IH; [|exact Hs|assumption]. simpl.
    rewrite <- app_assoc. reflexivity.
Qed.

Lemma marker_free_line (content l : string) :
  marker_free extract_markers content = true ->
  In l (split LF content) ->
  is_skin_section (strip l) = false /\ triggers_skip (strip l) = false.
Proof.
  intros Hm Hin. destruct (split_within _ _ _ Hin) as (a & b & E).
  unfold marker_free, extract_markers in Hm. cbn [forallb] in Hm.
  repeat (apply andb_true_iff in Hm as [?H Hm]).
  repeat match goal with
         | H : negb _ = true |- _ =>
             apply negb_true_iff in H; rewrite E in H;
             apply contains_false_within, contains_strip_false in H
         end.
  unfold is_skin_section, triggers_skip, is_general_dark_mode,
    is_skin_selector.
  repeat match goal with H : contains _ _ = false |- _ => rewrite H; clear H end.
  split; reflexivity.
Qed.

(** A text without any of the markers is written back as it is. *)
Lemma extract_clean_css_identity (content : string) :
  marker_free extract_markers content = true ->
  extract_clean_css content = content.
Proof.
  intros Hm. unfold extract_clean_css, filter_lines.
  rewrite extract_loop_clean; [simpl; apply join_split | reflexivity |].
  apply Forall_forall. intros l Hin. eapply marker_free_line; eassumption.
Qed.

End ExtractFacts.

(** ** Facts on [clean_css] *)

Section CleanFacts.

Import CleanCss.

Lemma clean_loop_app (st : state) (a b : list string) :
  loop st (a ++ b) = loop (loop st a) b.
Proof. apply fold_left_app. Qed.

Lemma clean_loop_cons (st : state) (l : string) (ls : list string) :
  loop st (l :: ls) = loop (step st l) ls.
Proof. reflexivity. Qed.

(** One line while a block is being skipped. *)
Lemma clean_step_skipping (st : state) (raw : string) :
  skip_block st = true ->
  step st raw =
  if (brace_count st + brace_delta raw <=? 0)%Z
  then mkState (cleaned_lines st) false 0 (current_selector_lines st)
  else mkState (cleaned_lines st) true (brace_count st + brace_delta raw)
         (current_selector_lines st).
Proof.
  intros H. unfold step. rewrite H. cbn [negb]. rewrite H.
  rewrite <- (brace_delta_strip raw). unfold brace_delta.
  replace (brace_count st + (count lbrace (strip raw) - count rbrace (strip raw)))%Z
    with (brace_count st + count lbrace (strip raw) - count rbrace (strip raw))%Z
    by lia.
  reflexivity.
Qed.

(** While the counter stays positive the block goes on being skipped. *)
Lemma clean_loop_skip_open (body : list string) :
  forall st,
  skip_block st = true ->
  stays_open (brace_count st) body = true ->
  loop st body
  = mkState (cleaned_lines st) true (running (brace_count st) body)
      (current_selector_lines st).
Proof.
  induction body as [|l body IH]; intros st Hs Ho.
  - destruct st; simpl in *; congruence.
  - cbn [stays_open] in Ho. apply andb_true_iff in Ho as [H1 H2].
    apply Z.ltb_lt in H1.
    rewrite clean_loop_cons, clean_step_skipping by assumption.
    destruct (Z.leb_spec (brace_count st + brace_delta l) 0); [lia|].
    rewrite IH; [reflexivity | reflexivity | exact H2].
Qed.

(** The skip ends with the first line after which the counter is at zero
    or below; that line is discarded too. *)
Lemma clean_loop_skip_close (st : state) (body : list string) (last : string)
    (rest : list string) :
  skip_block st = true ->
  stays_open (brace_count st) body = true ->
  (running (brace_count st) body + brace_delta last <= 0)%Z ->
  loop st (body ++ last :: rest)
  = loop (mkState (cleaned_lines st) false 0 (current_selector_lines st)) rest.
Proof.
  intros Hs Ho Hc. rewrite clean_loop_app, (clean_loop_skip_open body st) by assumption.
  rewrite clean_loop_cons, clean_step_skipping by reflexivity. cbn [brace_count].
  destruct (Z.leb_spec (running (brace_count st) body + brace_delta last) 0);
    [reflexivity | lia].
Qed.

(** A selector line without an opening brace waits in the buffer. *)
Lemma clean_step_pending (st : state) (raw : string) :
  skip_block st = false ->
  is_selector_line (strip raw) = true ->
  contains "{" (strip raw) = false ->
  step st raw
  = mkState (cleaned_lines st) false (brace_count st)
      (current_selector_lines st ++ [raw]).
Proof.
  intros Hs Hl Hb. unfold step, build_selector.
  rewrite Hs, Hl, Hb. reflexivity.
Qed.

Lemma clean_loop_pending (sel : list string) :
  forall st,
  skip_block st = false ->
  Forall (fun l => is_selector_line (strip l) = true
                   /\ contains "{" (strip l) = false) sel ->
  loop st sel
  = mkState (cleaned_lines st) false (brace_count st)
      (current_selector_lines st ++ sel).
Proof.
  induction sel as [|l sel IH]; intros st Hs Hf.
  - rewrite app_nil_r. destruct st; simpl in *; congruence.
  - inversion Hf as [|? ? [H1 H2] Hsel]; subst.
    rewrite clean_loop_cons, clean_step_pending, IH by (assumption || reflexivity).
    cbn. rewrite <- app_assoc. reflexivity.
Qed.

(** The selector line with the opening brace: the buffer is judged as
    one text. *)
Lemma clean_step_opening (st : state) (raw : string) :
  skip_block st = false ->
  is_selector_line (strip raw) = true ->
  contains "{" (strip raw) = true ->
  step st raw
  = if should_remove_selector (join "" (current_selector_lines st ++ [raw]))
    then mkState (cleaned_lines st) true 1 []
    else mkState (cleaned_lines st ++ current_selector_lines st ++ [raw])
           false (brace_count st) [].
Proof.
  intros Hs Hl Hb. unfold step, build_selector.
  rewrite Hs, Hl, Hb. cbn [negb].
  destruct (should_remove_selector _); reflexivity.
Qed.


(** A selector line without an opening brace never reaches the output by
    itself, whatever the state. *)
Lemma clean_step_selector_no_output (st : state) (raw : string) :
  is_selector_line (strip raw) = true ->
  contains "{" (strip raw) = false ->
  cleaned_lines (step st raw) = cleaned_lines st.
Proof.
  intros Hl Hb. destruct (skip_block st) eqn:Hs.
  - rewrite clean_step_skipping by assumption. destruct (_ <=? 0)%Z; reflexivity.
  - rewrite clean_step_pending by assumption. reflexivity.
Qed.

Lemma clean_loop_selectors_no_output (tail : list string) :
  forall st,
  Forall (fun l => is_selector_line (strip l) = true
                   /\ contains "{" (strip l) = false) tail ->
  cleaned_lines (loop st tail) = cleaned_lines st.
Proof.
  induction tail as [|l tail IH]; intros st Hf; [reflexivity|].
  inversion Hf as [|? ? [H1 H2] Ht]; subst.
  rewrite clean_loop_cons, IH, clean_step_selector_no_output by assumption.
  reflexivity.
Qed.

Lemma marker_free_keeps (text : string) :
  marker_free selector_markers text = true ->
  should_remove_selector text = false.
Proof.
  unfold marker_free, selector_markers, should_remove_selector.
  cbn [forallb]. intros H.
  apply andb_true_iff in H as [H1 H].
  apply andb_true_iff in H as [H2 _].
  apply negb_true_iff in H1, H2. rewrite H1, H2. reflexivity.
Qed.

(** On a text without markers the loop loses nothing: what is not yet
    written waits in the buffer. *)
Lemma clean_loop_marker_free (todo : list string) :
  forall st,
  skip_block st = false ->
  marker_free selector_markers (join "" (current_selector_lines st ++ todo))
  = true ->
  skip_block (loop st todo) = false
  /\ cleaned_lines (loop st todo) ++ current_selector_lines (loop st todo)
     = cleaned_lines st ++ current_selector_lines st ++ todo.
Proof.
  induction todo as [|l todo IH]; intros st Hs Hm.
  - rewrite app_nil_r. split; [exact Hs | reflexivity].
  - assert (Hcut : join "" (current_selector_lines st ++ l :: todo)
                   = (join "" (current_selector_lines st ++ [l])
                      ++ join "" todo)%string).
    { rewrite <- join_empty_app, <- app_assoc. reflexivity. }
    assert (Hsel : marker_free selector_markers
                     (join "" (current_selector_lines st ++ [l])) = true).
    { apply (marker_free_within _ "" _ (join "" todo)).
      rewrite <- Hcut. exact Hm. }
    assert (Htodo : marker_free selector_markers (join "" todo) = true).
    { apply (marker_free_within _
               (join "" (current_selector_lines st ++ [l])) _ "").
      rewrite append_nil_r, <- Hcut. exact Hm. }
    rewrite clean_loop_cons.
    destruct (is_selector_line (strip l)) eqn:Hl;
      [destruct (contains "{" (strip l)) eqn:Hb|].
    + rewrite clean_step_opening, (marker_free_keeps _ Hsel) by assumption.
      destruct (IH (mkState
                      (cleaned_lines st ++ current_selector_lines st ++ [l])
                      false (brace_count st) []) eq_refl Htodo) as [H1 H2].
      split; [exact H1|]. rewrite H2. cbn.
      rewrite <- !app_assoc. reflexivity.
    + rewrite clean_step_pending by assumption.
      destruct (IH (mkState (cleaned_lines st) false (brace_count st)
                      (current_selector_lines st ++ [l])) eq_refl) as [H1 H2].
      { cbn. rewrite <- app_assoc. exact Hm. }
      split; [exact H1|]. rewrite H2. cbn.
      rewrite <- !app_assoc. reflexivity.
    + assert (E : step st l
                  = mkState (cleaned_lines st ++ current_selector_lines st
                             ++ [l]) false (brace_count st) []).
      { unfold step, build_selector. rewrite Hs, Hl. cbn [negb].
        destruct st as [c sk bc cur]; cbn in *; subst sk.
        destruct cur; cbn; [reflexivity|].
        rewrite <- app_assoc. reflexivity. }
      rewrite E.
      destruct (IH (mkState
                      (cleaned_lines st ++ current_selector_lines st ++ [l])
                      false (brace_count st) []) eq_refl Htodo) as [H1 H2].
      split; [exact H1|]. rewrite H2. cbn.
      rewrite <- !app_assoc. reflexivity.
Qed.

(** Without markers, the only lines [clean_css] does not write are those
    left in the buffer when the input ends. *)
Lemma clean_css_marker_free (lines : list string) :
  marker_free selector_markers (join "" lines) = true ->
  clean_css lines ++ current_selector_lines (loop init lines) = lines.
Proof.
  intros Hm. destruct (clean_loop_marker_free lines init eq_refl Hm) as [_ H].
  exact H.
Qed.

End CleanFacts.

(** ** Facts on [create_clean_css] *)

Section CreateFacts.

Import CreateCleanCss.

Lemma create_step_inv (st : state) (l : string) :
  buffer_inv st -> buffer_inv (step st l).
Proof.
  unfold buffer_inv. destruct st as [c sk d cur]. cbn.
  intros H. unfold step; cbn. split_ifs; cbn in *; auto; try congruence.
  destruct (startswith "/*" (strip l)), (truthy (strip l)); discriminate.
Qed.

(** One turn of the loop adds nothing to the output, or the line it is
    on. *)
Lemma create_step_output (st : state) (l : string) :
  buffer_inv st ->
  cleaned_lines (step st l) = cleaned_lines st
  \/ cleaned_lines (step st l) = cleaned_lines st ++ [l].
Proof.
  unfold buffer_inv. destruct st as [c sk d cur]. cbn.
  intros H. unfold step; cbn.
  destruct sk; [|rewrite (H eq_refl)]; cbn [negb]; split_ifs; cbn; auto.
Qed.

Lemma create_loop_mask (ls : list string) :
  forall st,
  buffer_inv st ->
  buffer_inv (loop st ls)
  /\ exists mask,
       List.length mask = List.length ls
       /\ cleaned_lines (loop st ls) = cleaned_lines st ++ select mask ls.
Proof.
  induction ls as [|l ls IH]; intros st Hi.
  - split; [exact Hi|]. exists []. split; [reflexivity|].
    simpl. rewrite app_nil_r. reflexivity.
  - change (loop st (l :: ls)) with (loop (step st l) ls).
    destruct (IH _ (create_step_inv st l Hi)) as (Hi' & mask & Hl & Hk).
    split; [exact Hi'|]. rewrite Hk.
    destruct (create_step_output st l Hi) as [E|E]; rewrite E.
    + exists (false :: mask). split; [simpl; congruence | reflexivity].
    + exists (true :: mask). split; [simpl; congruence|].
      rewrite <- app_assoc. reflexivity.
Qed.

(** Nothing is left to add when the loop is over. *)
Lemma create_finish (st : state) :
  buffer_inv st -> finish st = cleaned_lines st.
Proof.
  unfold buffer_inv, finish. intros H.
  destruct (current_block_lines st) eqn:E; [reflexivity|].
  destruct (skip_block st); [reflexivity|].
  discriminate (H eq_refl).
Qed.


End CreateFacts.

(** ** Facts on [generate_icons] *)

Section IconFacts.

Import GenerateIcons.

Variable P : pillow.

(** The font chain: the first source that answers is used. *)
Lemma load_font_chain (font_size : Z) :
  load_font P font_size =
  if truetype P "Arial.ttf" font_size
  then ret (Truetype "Arial.ttf" font_size)
  else if truetype P "/System/Library/Fonts/Arial.ttf" font_size
  then ret (Truetype "/System/Library/Fonts/Arial.ttf" font_size)
  else if load_default P then ret DefaultFont
  else raise FontError.
Proof.
  unfold load_font.
  destruct (truetype P "Arial.ttf" font_size); [reflexivity|].
  destruct (truetype P "/System/Library/Fonts/Arial.ttf" font_size);
    [reflexivity|].
  destruct (load_default P); reflexivity.
Qed.

(** What the canvas holds when the [try] and its handler are over. *)
Lemma glyph_cases (size : Z) (img : image) :
  glyph P size img =
  match draw_centered P size img with
  | inr img' => ret img'
  | inl _ =>
      if text P (size / 4) (size / 4) None
      then ret (draw (Text (size / 4) (size / 4) None) img)
      else raise DrawError
  end.
Proof.
  unfold glyph, try_except, draw_fallback.
  destruct (draw_centered P size img); [|reflexivity].
  destruct (text P (size / 4) (size / 4) None); reflexivity.
Qed.

(** A call of [create_icon] leaves the world as it found it unless it
    returns. *)
Lemma create_icon_propagated (size : Z) (filename : string) (w : world)
    (e : exn) (w' : world) :
  create_icon P size filename w = Propagated e w' -> w' = w.
Proof.
  unfold create_icon, save_and_print.
  destruct (bind _ _); [intros [= _ <-]; reflexivity|].
  destruct (save P filename); [discriminate | intros [= _ <-]; reflexivity].
Qed.

Lemma create_icon_unwritable (size : Z) (filename : string) (w : world) :
  save P filename = false ->
  exists e, create_icon P size filename w = Propagated e w.
Proof.
  intros H. unfold create_icon, save_and_print. rewrite H.
  destruct (bind _ _) as [e|img]; eauto.
Qed.

Lemma for_sizes_app (before after : list Z) (w : world) :
  for_sizes P (before ++ after) w =
  match for_sizes P before w with
  | Returned w1 => for_sizes P after w1
  | Propagated e w1 => Propagated e w1
  end.
Proof.
  revert w; induction before as [|s before IH]; intros w; simpl.
  - reflexivity.
  - destruct (create_icon P s (icon_name s) w); [apply IH | reflexivity].
Qed.

End IconFacts.

(** ** The removal patterns *)

Section Classification.

Local Open Scope string_scope.

Lemma contains_tail (c : ascii) (m s : string) :
  contains (String c m) s = true -> contains m s = true.
Proof.
  intros H. apply contains_inv in H as (a & b & ->).
  replace (a ++ String c m ++ b) with ((a ++ String c "") ++ m ++ b)
    by (rewrite append_assoc; reflexivity).
  apply contains_intro.
Qed.

Lemma contains_tail_false (c : ascii) (m s : string) :
  contains m s = false -> contains (String c m) s = false.
Proof.
  intros H. destruct (contains (String c m) s) eqn:E; [|reflexivity].
  apply contains_tail in E. congruence.
Qed.

(** The two classifiers follow the pattern set in its order: the skin
    pattern first, then the speech-controls exception, then the general
    dark-mode pattern. *)
Lemma removal_patterns_in_order (block : string) :
  (contains skin_marker block = true ->
   CleanCss.should_remove_selector block = true
   /\ CreateCleanCss.should_remove_block block = true)
  /\ (contains dark_marker block = true ->
      contains speech_dark_marker block = false ->
      CleanCss.should_remove_selector block = true
      /\ CreateCleanCss.should_remove_block block = true)
  /\ (contains speech_dark_marker block = true ->
      contains skin_marker block = false ->
      CleanCss.should_remove_selector block = false)
  /\ (contains speech_dark_marker block = true ->
      contains "nativemimic-skin-" block = false ->
      CreateCleanCss.should_remove_block block = false).
Proof.
  unfold skin_marker, dark_marker, speech_dark_marker,
    CleanCss.should_remove_selector, CreateCleanCss.should_remove_block.
  split; [|split; [|split]].
  - intros H. rewrite H, (contains_tail _ _ _ H). split; reflexivity.
  - intros H H0. rewrite H, H0.
    destruct (contains ".nativemimic-skin-" block),
      (contains "nativemimic-skin-" block); split; reflexivity.
  - intros H H0. rewrite H0, H.
    destruct (contains ".nativemimic-dark-mode" block); reflexivity.
  - intros H H0. rewrite H, H0. reflexivity.
Qed.

(** C1 fails on [clean_css] and [create_clean_css] at the stylesheet made
    of the dark-mode block of the example followed by the
    speech-controls block, each on one line.  Both classifiers judge the
    two blocks as the claim says, the first to be removed and the second
    to be kept, yet nothing is written: the closing brace of the removed
    block stands on the line of its opening brace and is not counted, so
    the skip goes on and takes the block that was to be retained.
    [extract_clean_css], which counts both braces of the line, writes
    the speech-controls block unchanged. *)
Theorem C1_one_line_dark_block_swallows_speech_block :
  (CleanCss.should_remove_selector dark_block = true
   /\ CleanCss.should_remove_selector speech_dark_block = false
   /\ CreateCleanCss.should_remove_block dark_block = true
   /\ CreateCleanCss.should_remove_block speech_dark_block = false)
  /\ CleanCss.clean_css [line dark_block; line speech_dark_block] = []
  /\ (CleanCss.skip_block
        (CleanCss.loop CleanCss.init
           [line dark_block; line speech_dark_block]) = true
      /\ CleanCss.brace_count
           (CleanCss.loop CleanCss.init
              [line dark_block; line speech_dark_block]) = 1%Z)
  /\ CreateCleanCss.create_clean_css (line dark_block ++ speech_dark_block)
     = ""
  /\ ExtractCleanCss.extract_clean_css (line dark_block ++ speech_dark_block)
     = speech_dark_block.
Proof.
  split; [repeat split|]. split; [reflexivity|]. split; [split; reflexivity|].
  split; reflexivity.
Qed.

(** The other order of the two blocks.  In [clean_css] and
    [create_clean_css] the closing brace of a removed block is not counted
    when it stands on the line of the opening brace, so the skip takes
    the rule that follows; [extract_clean_css] counts both braces of the
    line and keeps it. *)
Example one_line_block_clean_css :
  CleanCss.clean_css [line dark_block; line speech_dark_block] = [].
Proof. reflexivity. Qed.

Example one_line_block_create_clean_css :
  CreateCleanCss.create_clean_css (line dark_block ++ speech_dark_block) = "".
Proof. reflexivity. Qed.

Example one_line_block_extract_clean_css :
  ExtractCleanCss.extract_clean_css (line dark_block ++ speech_dark_block)
  = speech_dark_block.
Proof. reflexivity. Qed.

End Classification.

(** ** Selectors on several lines *)

Section MultiLineSelector.




End MultiLineSelector.

(** ** Skipping a block *)

Section BlockSkip.

(** C3 fails on [clean_css] where the opening line of a removed block
    holds a second opening brace.  The counter is set to 1 on that line
    whatever braces it holds, so the skip ends on the closing brace of
    the inner pair and the closing brace of the removed block is written
    to the output.  [extract_clean_css], which starts at 0 and counts the
    braces of the opening line, skips to the outer closing brace and
    writes only the rule after it. *)
Theorem C3_clean_css_skip_ends_on_inner_brace :
  let css := [".nativemimic-dark-mode .panel { &:hover {";
              "    color: red;"; "  }"; "}"; ".keep { color: green; }"] in
  CleanCss.should_remove_selector (line (nth 0 css "")) = true
  /\ running 0 (firstn 3 css) = 1%Z
  /\ running 0 (firstn 4 css) = 0%Z
  /\ CleanCss.clean_css (map line css)
     = map line ["}"; ".keep { color: green; }"]
  /\ CleanCss.loop CleanCss.init (map line (firstn 3 css))
     = CleanCss.mkState [] false 0 []
  /\ ExtractCleanCss.filter_lines css = [".keep { color: green; }"].
Proof.
  cbv zeta. repeat split.
Qed.

End BlockSkip.

(** ** The output as a selection of the input *)

Section OutputLines.



(** C5 fails on [clean_css]: the stylesheet below holds no marker, yet its
    last line, a comment with a comma in it, is taken for a selector,
    waits in [current_selector_lines] and is never written. *)
Theorem C5_clean_css_drops_unflushed_lines :
  let css := map line [".a { color: red; }"; "/* end, of file */"] in
  marker_free selector_markers (join "" css) = true
  /\ CleanCss.clean_css css = [line ".a { color: red; }"]
  /\ CleanCss.current_selector_lines (CleanCss.loop CleanCss.init css)
     = [line "/* end, of file */"]
  /\ CleanCss.written css <> join "" css.
Proof.
  cbv zeta. split; [reflexivity|]. split; [reflexivity|].
  split; [reflexivity|]. vm_compute. discriminate.
Qed.

End OutputLines.

(** ** The section skip of [extract_clean_css] *)

Section SectionSkip.

Import ExtractCleanCss.

(** C6, as stated, fails in its consequence: a section header that a
    brace-counted skip consumes is not looked at and clears nothing.
    The first line below sets the section skip and starts the skip of a
    skin block; the header comment on the second line lies inside that
    block; after the block the flag is still set and the rule that
    follows the header is dropped. *)
Lemma C6_counterexample :
  let css := [".nativemimic-skin-grid {"; "/*RETRO*/"; "}";
              ".retro { color: red; }"] in
  is_section_header (strip (nth 1 css "")) = true
  /\ unmarked (nth 3 css "") = true
  /\ filter_lines css = []
  /\ skip_until_next_section (loop (mkState [] false) css) = true.
Proof. cbv zeta. repeat split. Qed.

(** C6, amended: when the trimmed text of the line the main loop is on
    starts with a comment opener not followed by a space, the flag is
    cleared before any pattern is tried on that line, whatever it was.
    So, from any state, also one with a section skip pending, a header
    line that holds no marker is written and so are the lines without
    markers after it; and a header line that holds a skin-section word
    sets the flag again after it was cleared, so that neither it nor the
    lines up to the next header are written.  A header that a
    brace-counted skip consumes is not looked at and leaves the flag as
    it is. *)
Theorem C6_section_header_clears_pending_skip
    (st : state) (header : string) (rest : list string) :
  is_section_header (strip header) = true ->
  triggers_skip (strip header) = false ->
  (is_skin_section (strip header) = false ->
   Forall (fun l => is_skin_section (strip l) = false
                    /\ triggers_skip (strip l) = false) rest ->
   keep_lines (loop st (header :: rest)) = keep_lines st ++ header :: rest
   /\ skip_until_next_section (loop st (header :: rest)) = false)
  /\ (is_skin_section (strip header) = true ->
      Forall (fun l => is_section_header (strip l) = false) rest ->
      keep_lines (loop st (header :: rest)) = keep_lines st
      /\ skip_until_next_section (loop st (header :: rest)) = true).
Proof.
  intros Hh Ht. split.
  - intros Hk Hf. rewrite extract_loop_cons, Ht.
    assert (E : keep_or_drop (enter st (strip header)) header
                = mkState (keep_lines st ++ [header]) false).
    { unfold enter, keep_or_drop. rewrite Hh, Hk. reflexivity. }
    rewrite E, extract_loop_clean by (reflexivity || exact Hf).
    cbn [keep_lines skip_until_next_section]. rewrite <- app_assoc. auto.
  - intros Hk Hf. rewrite extract_loop_cons, Ht.
    assert (E : keep_or_drop (enter st (strip header)) header
                = mkState (keep_lines st) true).
    { unfold enter, keep_or_drop. rewrite Hh, Hk. reflexivity. }
    rewrite E.
    destruct (extract_loop_skipping rest (mkState (keep_lines st) true) []
                eq_refl Hf) as (consumed & rest' & Hnil & Hl).
    rewrite app_nil_r in Hl. symmetry in Hnil.
    apply app_eq_nil in Hnil as [_ ->]. rewrite Hl. cbn. auto.
Qed.

(** The amended C6 on a header line met while a section skip is
    pending: the header and the rule after it are written. *)
Lemma C6_witness :
  keep_lines (loop (mkState [".a { }"] true)
                ["/*RETRO*/"; ".retro { color: red; }"])
  = [".a { }"] ++ ["/*RETRO*/"; ".retro { color: red; }"]
  /\ skip_until_next_section
       (loop (mkState [".a { }"] true)
          ["/*RETRO*/"; ".retro { color: red; }"]) = false.
Proof.
  apply (proj1 (C6_section_header_clears_pending_skip
                  (mkState [".a { }"] true) "/*RETRO*/"
                  [".retro { color: red; }"] eq_refl eq_refl)).
  - reflexivity.
  - repeat constructor.
Defined.

(** C9, as stated, fails for a marker line that a brace-counted skip
    consumes: the second line below holds skin-grid, it lies inside a
    removed dark-mode block, the main loop never looks at it, and the
    rule after the block is kept although no section header comes
    before it. *)
Lemma C9_counterexample :
  let css := [".nativemimic-dark-mode .nativemimic-panel {";
              "  background: url(skin-grid.png);"; "}";
              ".keep { color: red; }"] in
  is_skin_section (strip (nth 1 css "")) = true
  /\ Forall (fun l => is_section_header (strip l) = false) css
  /\ filter_lines css = [".keep { color: red; }"].
Proof. cbv zeta. split; [reflexivity|]. split; [repeat constructor | reflexivity]. Qed.

(** C9, amended: when the main loop of [extract_clean_css] is on a line
    that holds skin-presets, skin-custom or skin-grid, it sets the
    skip flag, and neither that line nor any line after it reaches the
    output, whatever the braces, up to the next section header: the
    loop goes on behind these lines, or further when a brace-counted
    skip runs past them, with the same kept lines and the flag still
    set. *)
Theorem C9_skin_section_skips_to_next_header
    (st : state) (marked : string) (mid rest : list string) :
  is_skin_section (strip marked) = true ->
  Forall (fun l => is_section_header (strip l) = false) mid ->
  exists consumed rest',
    rest = consumed ++ rest'
    /\ loop st (marked :: mid ++ rest)
       = loop (mkState (keep_lines st) true) rest'.
Proof.
  intros Hk Hf.
  assert (E : enter st (strip marked) = mkState (keep_lines st) true).
  { unfold enter. rewrite Hk.
    destruct (is_section_header (strip marked)); reflexivity. }
  rewrite extract_loop_cons, E.
  destruct (triggers_skip (strip marked)).
  - change (marked :: mid ++ rest) with ((marked :: mid) ++ rest).
    destruct (skip_rest_app 0 (marked :: mid) rest)
      as [(a1 & a2 & Ea & R & Hne)|(b1 & b2 & Eb & R)]; rewrite R.
    + destruct a1 as [|x a1];
        [exfalso; apply Hne; [discriminate | reflexivity]|].
      injection Ea as _ Ea. rewrite Ea in Hf.
      apply Forall_app in Hf as [_ Hf].
      apply extract_loop_skipping; [reflexivity | exact Hf].
    + exists b1, b2. split; [exact Eb | reflexivity].
  - rewrite keep_or_drop_skipping by reflexivity.
    apply extract_loop_skipping; [reflexivity | exact Hf].
Qed.

(** The amended C9 on a comment that mentions skin-grid: the rule and the
    loose line after it are dropped, up to the next section header. *)
Lemma C9_witness :
  exists consumed rest',
    ["/*RETRO*/"; ".retro { color: red; }"] = consumed ++ rest'
    /\ loop (mkState [] false)
         ("/* skin-grid layout */"
          :: [".tile { margin: 0; }"; "@import url(tiles.css);"]
             ++ ["/*RETRO*/"; ".retro { color: red; }"])
       = loop (mkState [] true) rest'.
Proof.
  apply (C9_skin_section_skips_to_next_header (mkState [] false)
           "/* skin-grid layout */"
           [".tile { margin: 0; }"; "@import url(tiles.css);"]
           ["/*RETRO*/"; ".retro { color: red; }"]).
  - reflexivity.
  - repeat constructor.
Defined.

End SectionSkip.

(** ** Selector lines left in the buffer *)

Section TrailingSelectors.

Import CleanCss.

Lemma looks_like_selector_line (l : string) :
  looks_like_selector l = true -> is_selector_line l = true.
Proof.
  intros H. unfold is_selector_line. destruct l; [discriminate H|].
  exact H.
Qed.

(** C10: in [clean_css], lines at the end of the input that each start
    with '.' or '#' or hold a ',' and hold no opening brace never reach
    the output: the output is the one of the input without them; when
    no block is being skipped they are gathered in
    [current_selector_lines], which nothing writes out when the input
    ends. *)
Theorem C10_trailing_selector_lines_dropped (pre tail : list string) :
  Forall (fun l => looks_like_selector (strip l) = true
                   /\ contains "{" (strip l) = false) tail ->
  clean_css (pre ++ tail) = clean_css pre
  /\ (skip_block (loop init pre) = false ->
      current_selector_lines (loop init (pre ++ tail))
      = current_selector_lines (loop init pre) ++ tail).
Proof.
  intros Hf.
  assert (Hf' : Forall (fun l => is_selector_line (strip l) = true
                                 /\ contains "{" (strip l) = false) tail).
  { eapply Forall_impl; [|exact Hf]. cbv beta.
    intros l [H1 H2]. split; [apply looks_like_selector_line, H1 | exact H2]. }
  split.
  - unfold clean_css. rewrite clean_loop_app.
    apply clean_loop_selectors_no_output, Hf'.
  - intros Hs. rewrite clean_loop_app, clean_loop_pending by assumption.
    reflexivity.
Qed.

(** C10 on a stylesheet that ends with two selector lines and no block. *)
Lemma C10_witness :
  clean_css ([line ".a { color: red; }"; line "}"]
             ++ [line ".b,"; line ".c"])
  = clean_css [line ".a { color: red; }"; line "}"].
Proof.
  apply (C10_trailing_selector_lines_dropped
           [line ".a { color: red; }"; line "}"] [line ".b,"; line ".c"]).
  repeat constructor.
Defined.

End TrailingSelectors.

(** ** Failures while an icon is made *)

Section IconFailures.

Import GenerateIcons.

(** C7, as stated, fails: the glyph drawn in the handler of the outer
    [try] is not guarded.  Where no font can be loaded and no text drawn
    without a font, the handler raises, the exception leaves
    [create_icon], and the file is not saved although it could be. *)
Lemma C7_counterexample :
  create_icon no_font_pillow 16 "icon16.png" empty_world
  = Propagated DrawError empty_world
  /\ save no_font_pillow "icon16.png" = true
  /\ forall img,
       create_icon no_font_pillow 16 "icon16.png" empty_world
       <> save_and_print no_font_pillow img "icon16.png" empty_world.
Proof.
  split; [reflexivity|]. split; [reflexivity|].
  intros img. vm_compute. discriminate.
Qed.

(** C7, amended: for every icon size, [create_icon] lets no exception
    out that is raised inside the outer [try], by font loading, by the
    measure of the glyph or by the drawing of the centred glyph.  A font
    source that fails hands over to the next one of the chain; a failure
    of the [try] as a whole leads to the glyph drawn at
    [(size//4, size//4)]; and when the canvas was set up and that second
    drawing does not raise either, the call reaches the save, so the
    file is written when the save returns. *)
Theorem C7_guarded_failures_reach_save
    (P : pillow) (size : Z) (filename : string) (w : world) :
  new_image P size = true ->
  rounded_rectangle P size = true ->
  (forall e, draw_centered P size (canvas size) = inl e ->
             text P (size / 4) (size / 4) None = true) ->
  (exists img,
      create_icon P size filename w = save_and_print P img filename w
      /\ (draw_centered P size (canvas size) = inr img
          \/ (exists e, draw_centered P size (canvas size) = inl e)
             /\ img = draw (Text (size / 4) (size / 4) None) (canvas size))
      /\ (save P filename = true ->
          create_icon P size filename w
          = Returned (mkWorld (files w ++ [(filename, img)])
                        (console w ++ ["Created " ++ filename]%string))))
  /\ load_font P (font_size_of P size)
     = (if truetype P "Arial.ttf" (font_size_of P size)
        then ret (Truetype "Arial.ttf" (font_size_of P size))
        else if truetype P "/System/Library/Fonts/Arial.ttf"
                  (font_size_of P size)
        then ret (Truetype "/System/Library/Fonts/Arial.ttf"
                    (font_size_of P size))
        else if load_default P then ret DefaultFont
        else raise FontError).
Proof.
  intros Hn Hr Hfb. split; [|apply load_font_chain].
  assert (Hbg : background P size = ret (canvas size)).
  { unfold background. rewrite Hn, Hr. reflexivity. }
  unfold create_icon. rewrite Hbg. cbn [bind ret]. rewrite glyph_cases.
  destruct (draw_centered P size (canvas size)) as [e|img] eqn:E.
  - rewrite (Hfb e eq_refl). cbn [ret].
    exists (draw (Text (size / 4) (size / 4) None) (canvas size)).
    split; [reflexivity|]. split; [right; split; [eauto | reflexivity]|].
    intros Hs. unfold save_and_print. rewrite Hs. reflexivity.
  - exists img. cbn [ret]. split; [reflexivity|]. split; [left; reflexivity|].
    intros Hs. unfold save_and_print. rewrite Hs. reflexivity.
Qed.

(** The amended C7 where the glyph cannot be measured: the handler draws
    it at (4, 4) and the file is written. *)
Lemma C7_witness :
  create_icon no_bbox_pillow 16 "icon16.png" empty_world
  = Returned
      (mkWorld [("icon16.png", draw (Text 4 4 None) (canvas 16))]
         ["Created icon16.png"]).
Proof.
  destruct (C7_guarded_failures_reach_save no_bbox_pillow 16 "icon16.png"
              empty_world eq_refl eq_refl (fun _ _ => eq_refl))
    as [(img & _ & [Hc|[_ Hi]] & Hret) _].
  - vm_compute in Hc. discriminate Hc.
  - rewrite (Hret eq_refl), Hi. reflexivity.
Defined.

(** C8, as stated, fails: nothing catches a failure of the save, neither
    in [create_icon] nor around the loop over the sizes.  Where only
    icon32.png cannot be written, the run ends there with the exception
    and the icons of the sizes 48 and 128 are not made. *)
Lemma C8_counterexample :
  exists w,
    main (pillow_without "icon32.png") empty_world = Propagated SaveError w
    /\ map fst (files w) = ["icon16.png"]
    /\ save (pillow_without "icon32.png") (icon_name 48) = true
    /\ save (pillow_without "icon32.png") (icon_name 128) = true.
Proof.
  eexists. split; [vm_compute; reflexivity|]. repeat split.
Qed.

(** C8, amended: a save that fails while one icon is made is fatal for
    the run: the exception leaves [create_icon] and the loop over the
    sizes, the icons of the sizes before it stay written, and the sizes
    after it are not attempted. *)
Theorem C8_save_failure_aborts_run
    (P : pillow) (before : list Z) (size : Z) (after : list Z)
    (w w1 : world) :
  for_sizes P before w = Returned w1 ->
  save P (icon_name size) = false ->
  exists e,
    for_sizes P (before ++ size :: after) w = Propagated e w1
    /\ (before ++ size :: after = sizes -> main P w = Propagated e w1).
Proof.
  intros Hb Hs.
  destruct (create_icon_unwritable P size (icon_name size) w1 Hs) as [e He].
  exists e.
  assert (E : for_sizes P (before ++ size :: after) w = Propagated e w1).
  { rewrite for_sizes_app, Hb. cbn [for_sizes]. rewrite He. reflexivity. }
  split; [exact E|].
  intros Hsz. unfold main. rewrite <- Hsz, E. reflexivity.
Qed.

(** The amended C8 where icon32.png cannot be written. *)
Lemma C8_witness :
  exists e,
    for_sizes (pillow_without "icon32.png") ([16] ++ 32 :: [48; 128])%Z
      empty_world
    = Propagated e
        (mkWorld
           [("icon16.png", draw (Text 5 1 (Some DefaultFont)) (canvas 16))]
           ["Created icon16.png"])
    /\ (([16] ++ 32 :: [48; 128])%Z = sizes ->
        main (pillow_without "icon32.png") empty_world
        = Propagated e
            (mkWorld
               [("icon16.png",
                 draw (Text 5 1 (Some DefaultFont)) (canvas 16))]
               ["Created icon16.png"])).
Proof.
  apply (C8_save_failure_aborts_run (pillow_without "icon32.png")
           [16%Z] 32%Z [48%Z; 128%Z] empty_world); reflexivity.
Defined.

End IconFailures.

(** ** More on [extract_clean_css]: what it keeps, and running it twice *)

Section ExtractOutput.

Import ExtractCleanCss.

Lemma enter_not_skipping (st : state) (l : string) :
  skip_until_next_section (enter st l) = false -> is_skin_section l = false.
Proof.
  unfold enter. destruct (is_skin_section l); [discriminate | reflexivity].
Qed.

Lemma extract_loop_kept_unmarked (st : state) (ls : list string) :
  Forall (fun l => unmarked l = true) (keep_lines st) ->
  Forall (fun l => unmarked l = true) (keep_lines (loop st ls)).
Proof.
  revert st ls. apply (extract_loop_visit_ind (fun st ls =>
    Forall (fun l => unmarked l = true) (keep_lines st) ->
    Forall (fun l => unmarked l = true) (keep_lines (loop st ls)))).
  - intros st H. exact H.
  - intros st raw rest T IH H. rewrite extract_loop_cons, T.
    apply IH. rewrite keep_lines_enter. exact H.
  - intros st raw rest T IH H. rewrite extract_loop_cons, T.
    apply IH. unfold keep_or_drop.
    destruct (skip_until_next_section (enter st (strip raw))) eqn:E; cbn.
    + rewrite keep_lines_enter. exact H.
    + rewrite keep_lines_enter. apply Forall_app. split; [exact H|].
      constructor; [|constructor]. unfold unmarked.
      rewrite (enter_not_skipping _ _ E), T. reflexivity.
Qed.

(** No line that [extract_clean_css] writes holds one of its markers:
    neither a skin-section word, nor the general dark-mode selector
    without the speech-controls one, nor a skin selector. *)
Theorem extract_output_unmarked (lines : list string) :
  Forall (fun l => is_skin_section (strip l) = false
                   /\ is_general_dark_mode (strip l) = false
                   /\ is_skin_selector (strip l) = false)
    (filter_lines lines).
Proof.
  assert (H : Forall (fun l => unmarked l = true) (filter_lines lines)).
  { apply extract_loop_kept_unmarked. constructor. }
  eapply Forall_impl; [|exact H]. cbv beta. unfold unmarked, triggers_skip.
  intros l Hl. apply andb_true_iff in Hl as [H1 H2].
  apply negb_true_iff in H1, H2. apply orb_false_iff in H2 as [H2 H3].
  auto.
Qed.

(** Filtering the lines that [extract_clean_css] kept keeps them all. *)
Theorem extract_filter_lines_idempotent (lines : list string) :
  filter_lines (filter_lines lines) = filter_lines lines.
Proof.
  unfold filter_lines at 1. rewrite extract_loop_clean; [reflexivity.. |].
  assert (H : Forall (fun l => unmarked l = true) (filter_lines lines)).
  { apply extract_loop_kept_unmarked. constructor. }
  eapply Forall_impl; [|exact H]. cbv beta. unfold unmarked.
  intros l Hl. apply andb_true_iff in Hl as [H1 H2].
  apply negb_true_iff in H1, H2. auto.
Qed.

(** The counts [extract_clean_css] prints: there is at least one
    original line, the cleaned count lies between 0 and the original
    one, and the removed count is their difference, never negative. *)
Theorem extract_report_counts (content : string) :
  let '(original, cleaned, removed) := report content in
  (1 <= original /\ 0 <= cleaned <= original
   /\ 0 <= removed /\ original = cleaned + removed)%Z.
Proof.
  unfold report.
  destruct (extract_loop_mask (mkState [] false) (split LF content))
    as (mask & Hl & Hk).
  pose proof (select_length mask (split LF content) Hl) as Hs.
  unfold filter_lines. rewrite Hk. cbn [keep_lines app].
  destruct (split_from_cons LF "" content) as (x & xs & E).
  unfold split in *. rewrite E in *. cbn [List.length] in *. lia.
Qed.

End ExtractOutput.

(** ** Splitting what was joined *)

Section SplitJoin.

Local Open Scope string_scope.

Lemma count_nonneg (c : ascii) (s : string) : (0 <= count c s)%Z.
Proof. induction s as [|d s IH]; simpl; [lia|]. destruct (Ascii.eqb c d); lia. Qed.

Lemma count_app (c : ascii) (a b : string) :
  count c (a ++ b) = (count c a + count c b)%Z.
Proof. induction a; simpl; lia. Qed.

Lemma count_zero_cons (c d : ascii) (s : string) :
  count c (String d s) = 0%Z -> Ascii.eqb c d = false /\ count c s = 0%Z.
Proof.
  simpl. pose proof (count_nonneg c s). destruct (Ascii.eqb c d); split;
    (reflexivity || lia).
Qed.

Lemma split_from_free (c : ascii) (l : string) :
  forall cur s,
  count c l = 0%Z -> split_from c cur (l ++ s) = split_from c (cur ++ l) s.
Proof.
  induction l as [|d l IH]; intros cur s H.
  - rewrite append_nil_r. reflexivity.
  - apply count_zero_cons in H as [Hd Hl]. simpl. rewrite Hd, IH by exact Hl.
    rewrite append_assoc. reflexivity.
Qed.

(** [sep.join(ls).split(sep)] gives [ls] back when no part holds the
    separator and there is a part. *)
Lemma split_join (c : ascii) (ls : list string) :
  ls <> [] ->
  Forall (fun l => count c l = 0%Z) ls ->
  split c (join (String c "") ls) = ls.
Proof.
  induction ls as [|x [|y ys] IH]; intros Hne Hf; [congruence| |].
  - inversion Hf as [|? ? Hx _]; subst. unfold split. simpl.
    rewrite <- (append_nil_r x) at 1. rewrite split_from_free by exact Hx.
    reflexivity.
  - inversion Hf as [|? ? Hx Hys]; subst. rewrite join_cons. unfold split.
    rewrite split_from_free by exact Hx. simpl.
    rewrite Ascii.eqb_refl. f_equal. apply IH; [discriminate | exact Hys].
Qed.

Lemma split_from_free_fields (c : ascii) (s : string) :
  forall cur,
  count c cur = 0%Z ->
  Forall (fun l => count c l = 0%Z) (split_from c cur s).
Proof.
  induction s as [|d s IH]; intros cur H; simpl.
  - constructor; [exact H | constructor].
  - destruct (Ascii.eqb c d) eqn:E.
    + constructor; [exact H | apply IH; reflexivity].
    + apply IH. rewrite count_app, H. simpl. rewrite E. reflexivity.
Qed.

Lemma select_Forall {A : Type} (Q : A -> Prop) (mask : list bool) :
  forall l, Forall Q l -> Forall Q (select mask l).
Proof.
  induction mask as [|b mask IH]; intros [|x l] H; simpl; try constructor.
  inversion H; subst. destruct b; [constructor|]; auto.
Qed.

Lemma select_all_true {A : Type} (l : list A) :
  select (repeat true (List.length l)) l = l.
Proof. induction l; simpl; congruence. Qed.

End SplitJoin.

Section ExtractTwice.

Import ExtractCleanCss.

(** Running [extract_clean_css] on the text it wrote writes the same
    text again. *)
Theorem extract_clean_css_idempotent (content : string) :
  extract_clean_css (extract_clean_css content) = extract_clean_css content.
Proof.
  unfold extract_clean_css.
  destruct (filter_lines (split LF content)) as [|k ks] eqn:E.
  - reflexivity.
  - rewrite split_join.
    + rewrite <- E, extract_filter_lines_idempotent. reflexivity.
    + discriminate.
    + rewrite <- E.
      destruct (extract_loop_mask (mkState [] false) (split LF content))
        as (mask & _ & Hk).
      unfold filter_lines. rewrite Hk. cbn [keep_lines app].
      apply select_Forall. apply split_from_free_fields. reflexivity.
Qed.

End ExtractTwice.

(** ** More on [clean_css]: the output as a selection of the input *)

Section CleanOutput.

Import CleanCss.

(** A line that is no selector line, outside a skip: the buffer is
    written, then the line. *)
Lemma clean_step_plain (st : state) (raw : string) :
  skip_block st = false ->
  is_selector_line (strip raw) = false ->
  step st raw
  = mkState (cleaned_lines st ++ current_selector_lines st ++ [raw])
      false (brace_count st) [].
Proof.
  intros Hs Hl. unfold step, build_selector. rewrite Hs, Hl. cbn [negb].
  destruct st as [c sk bc cur]; cbn in *; subst sk.
  destruct cur; cbn; [reflexivity|]. rewrite <- app_assoc. reflexivity.
Qed.

Lemma select_snoc_false (mask : list bool) (before more : list string) :
  List.length mask = List.length before ->
  select (mask ++ repeat false (List.length more)) (before ++ more)
  = select mask before.
Proof.
  intros H. rewrite select_app by exact H.
  rewrite select_all_false, app_nil_r. reflexivity.
Qed.

Lemma select_snoc_true (mask : list bool) (before more : list string) :
  List.length mask = List.length before ->
  select (mask ++ repeat true (List.length more)) (before ++ more)
  = select mask before ++ more.
Proof.
  intros H. rewrite select_app by exact H.
  rewrite select_all_true. reflexivity.
Qed.

Lemma clean_inv_dropped (c : list string) (sk : bool) (bc : Z)
    (before more : list string) (mask : list bool) :
  List.length mask = List.length before ->
  c = select mask before ->
  clean_inv (mkState c sk bc []) (before ++ more).
Proof.
  intros Hl Hc. split; [reflexivity|].
  exists (before ++ more), (mask ++ repeat false (List.length more)).
  cbn [current_selector_lines cleaned_lines].
  rewrite app_nil_r, select_snoc_false, !length_app, repeat_length by exact Hl.
  auto.
Qed.

Lemma clean_inv_written (c : list string) (sk : bool) (bc : Z)
    (before more : list string) (mask : list bool) :
  List.length mask = List.length before ->
  c = select mask before ->
  clean_inv (mkState (c ++ more) sk bc []) (before ++ more).
Proof.
  intros Hl Hc. split; [reflexivity|].
  exists (before ++ more), (mask ++ repeat true (List.length more)).
  cbn [current_selector_lines cleaned_lines].
  rewrite app_nil_r, select_snoc_true, !length_app, repeat_length by exact Hl.
  subst c. auto.
Qed.

Lemma clean_step_inv (st : state) (done : list string) (l : string) :
  clean_inv st done -> clean_inv (step st l) (done ++ [l]).
Proof.
  intros (Hbuf & before & mask & Hd & Hl & Hc). subst done.
  rewrite <- app_assoc.
  destruct (skip_block st) eqn:Hs.
  - rewrite clean_step_skipping by exact Hs. rewrite (Hbuf eq_refl).
    destruct (_ <=? 0)%Z; eapply clean_inv_dropped; eassumption.
  - destruct (is_selector_line (strip l)) eqn:Hsel;
      [destruct (contains "{" (strip l)) eqn:Hb|].
    + rewrite clean_step_opening by assumption.
      destruct (should_remove_selector _).
      * eapply clean_inv_dropped; eassumption.
      * eapply clean_inv_written; eassumption.
    + rewrite clean_step_pending by assumption.
      split; [discriminate|]. exists before, mask.
      cbn [current_selector_lines cleaned_lines]. auto.
    + rewrite clean_step_plain by assumption.
      eapply clean_inv_written; eassumption.
Qed.

Lemma clean_loop_inv (todo : list string) :
  forall st done,
  clean_inv st done -> clean_inv (loop st todo) (done ++ todo).
Proof.
  induction todo as [|l todo IH]; intros st done H.
  - rewrite app_nil_r. exact H.
  - rewrite clean_loop_cons.
    replace (done ++ l :: todo) with ((done ++ [l]) ++ todo)
      by (rewrite <- app_assoc; reflexivity).
    apply IH, clean_step_inv, H.
Qed.

(** The lines [clean_css] writes are selected from the lines it read by
    a mask: each is a line of the input as it was read, none is written
    twice and none out of order. *)
Theorem clean_css_selected_from_input (lines : list string) :
  exists mask : list bool,
    List.length mask = List.length lines
    /\ clean_css lines = select mask lines
    /\ (List.length (clean_css lines) + dropped mask
        = List.length lines)%nat.
Proof.
  assert (H0 : clean_inv init []).
  { split; [discriminate|]. exists [], []. auto. }
  destruct (clean_loop_inv lines init [] H0)
    as (_ & before & mask & Hd & Hl & Hc).
  cbn [app] in Hd. unfold clean_css.
  remember (current_selector_lines (loop init lines)) as cur eqn:Hcur.
  remember (cleaned_lines (loop init lines)) as out eqn:Hout.
  clear Hcur Hout. subst lines out.
  assert (Hm : List.length (mask ++ repeat false (List.length cur))
               = List.length (before ++ cur)).
  { rewrite !length_app, repeat_length, Hl. reflexivity. }
  exists (mask ++ repeat false (List.length cur)).
  split; [exact Hm|].
  rewrite <- (select_snoc_false mask before cur Hl).
  split; [reflexivity | apply select_length, Hm].
Qed.

End CleanOutput.

(** ** More on [create_clean_css] *)

Section CreateOutput.

Import CreateCleanCss.

Lemma block_marker_free_keeps (text : string) :
  marker_free block_markers text = true -> should_remove_block text = false.
Proof.
  unfold marker_free, block_markers, should_remove_block.
  cbn [forallb]. intros H.
  apply andb_true_iff in H as [H1 H].
  apply andb_true_iff in H as [H2 _].
  apply negb_true_iff in H1, H2. rewrite H1, H2.
  destruct (contains ".nativemimic-speech-controls.nativemimic-dark-mode"
              text); reflexivity.
Qed.

(** Outside a skip, a line that matches no pattern is written at once,
    whatever braces it holds. *)
Lemma create_step_clean (st : state) (l : string) :
  skip_block st = false ->
  current_block_lines st = [] ->
  should_remove_block l = false ->
  exists depth, step st l = mkState (cleaned_lines st ++ [l]) false depth [].
Proof.
  destruct st as [c sk d cur]. cbn. intros -> -> Hl.
  unfold step. cbn. rewrite Hl. split_ifs; eauto.
  destruct (startswith "/*" (strip l)), (truthy (strip l)); discriminate.
Qed.

Lemma create_loop_clean (ls : list string) :
  forall st,
  skip_block st = false ->
  current_block_lines st = [] ->
  Forall (fun l => should_remove_block l = false) ls ->
  cleaned_lines (loop st ls) = cleaned_lines st ++ ls
  /\ skip_block (loop st ls) = false
  /\ current_block_lines (loop st ls) = [].
Proof.
  induction ls as [|l ls IH]; intros st Hs Hc Hf.
  - rewrite app_nil_r. auto.
  - inversion Hf as [|? ? Hl Hls]; subst.
    change (loop st (l :: ls)) with (loop (step st l) ls).
    destruct (create_step_clean st l Hs Hc Hl) as [d E]. rewrite E.
    destruct (IH (mkState (cleaned_lines st ++ [l]) false d [])
                eq_refl eq_refl Hls) as (H1 & H2 & H3).
    rewrite H1. cbn. rewrite <- app_assoc. auto.
Qed.

(** A text that holds neither nativemimic-skin- nor
    .nativemimic-dark-mode is written back by [create_clean_css] as it
    is. *)
Theorem create_clean_css_identity (content : string) :
  marker_free block_markers content = true ->
  create_clean_css content = content.
Proof.
  intros Hm. unfold create_clean_css, filter_lines.
  destruct (create_loop_clean (split LF content) init eq_refl eq_refl)
    as (H1 & H2 & H3).
  - apply Forall_forall. intros l Hin.
    destruct (split_within _ _ _ Hin) as (a & b & E).
    apply block_marker_free_keeps.
    apply (marker_free_within _ a l b). rewrite <- E. exact Hm.
  - unfold finish. rewrite H3, H1. apply join_split.
Qed.

(** The identity on a small stylesheet with a nested block. *)
Lemma create_clean_css_identity_witness :
  create_clean_css
    (line "@media print {" ++ line "  .a { color: red; }" ++ "}")
  = (line "@media print {" ++ line "  .a { color: red; }" ++ "}")%string.
Proof.
  apply (create_clean_css_identity
           (line "@media print {" ++ line "  .a { color: red; }" ++ "}")).
  reflexivity.
Defined.

Lemma create_step_skipping (st : state) (l : string) :
  skip_block st = true ->
  cleaned_lines (step st l) = cleaned_lines st
  /\ (skip_block (step st l) = false ->
      contains "{" l = false /\ contains "}" l = true
      /\ (block_depth st - count rbrace l <= 0)%Z).
Proof.
  destruct st as [c sk d cur]. cbn. intros ->.
  unfold step. cbn. split_ifs; cbn; split; auto; intros; try discriminate.
  repeat split. apply Z.leb_le. assumption.
Qed.

(** While [create_clean_css] skips a block it writes nothing, and the
    skip does not end on a line that holds an opening brace or no
    closing brace: a closing brace that shares its line with an opening
    one is not counted.  Through any run of such lines, one-line rules
    among them, the skip goes on. *)
Theorem create_skip_runs_on (st : state) (ls : list string) :
  skip_block st = true ->
  Forall (fun l => contains "{" l || negb (contains "}" l) = true) ls ->
  cleaned_lines (loop st ls) = cleaned_lines st
  /\ skip_block (loop st ls) = true.
Proof.
  revert st; induction ls as [|l ls IH]; intros st Hs Hf; [auto|].
  inversion Hf as [|? ? Hl Hls]; subst.
  change (loop st (l :: ls)) with (loop (step st l) ls).
  destruct (create_step_skipping st l Hs) as [Hc He].
  assert (Hs' : skip_block (step st l) = true).
  { destruct (skip_block (step st l)); [reflexivity|].
    destruct (He eq_refl) as (H1 & H2 & _). rewrite H1, H2 in Hl.
    discriminate. }
  destruct (IH _ Hs' Hls) as [H1 H2]. rewrite H1, Hc. auto.
Qed.

(** After a removed rule written on one line, the rules that follow on
    one line each are dropped as well. *)
Lemma create_skip_runs_on_witness :
  cleaned_lines
    (loop (loop init [dark_block])
       [".keep { color: red; }"; ""; ".also { margin: 0; }"])
  = cleaned_lines (loop init [dark_block])
  /\ skip_block
       (loop (loop init [dark_block])
          [".keep { color: red; }"; ""; ".also { margin: 0; }"])
     = true.
Proof.
  apply (create_skip_runs_on (loop init [dark_block])
           [".keep { color: red; }"; ""; ".also { margin: 0; }"]).
  - reflexivity.
  - repeat constructor.
Defined.

End CreateOutput.

(** ** More on [generate_icons] *)

Section IconOutput.

Import GenerateIcons.

(** The centred glyph is one more thing drawn on the canvas. *)
Lemma draw_centered_shape (P : pillow) (size : Z) (img img' : image) :
  draw_centered P size img = inr img' ->
  exists x y f, img' = draw (Text x y (Some f)) img.
Proof.
  unfold draw_centered, bind, call.
  destruct (load_font _ _) as [e|f]; [discriminate|].
  destruct (textbbox P f) as [[[[b0 b1] b2] b3]|]; [|discriminate].
  destruct (text P _ _ (Some f)); [|discriminate].
  intros [= <-]. eauto.
Qed.

(** A call that returns has added one file under the name given. *)
Lemma create_icon_returned_file
    (P : pillow) (size : Z) (filename : string) (w w' : world) :
  create_icon P size filename w = Returned w' ->
  exists img, files w' = files w ++ [(filename, img)].
Proof.
  unfold create_icon, save_and_print.
  destruct (bind _ _) as [e|img]; [discriminate|].
  destruct (save P filename); [|discriminate].
  intros [= <-]. cbn. eauto.
Qed.

(** A centred glyph is drawn where the bounding box of the font puts
    it: within a pixel of the middle from left to right, and two rows
    above the middle from top to bottom. *)
Theorem draw_centered_position
    (P : pillow) (size : Z) (img img' : image) :
  draw_centered P size img = inr img' ->
  exists f b0 b1 b2 b3 x y,
    textbbox P f = Some (b0, b1, b2, b3)
    /\ drawn img' = drawn img ++ [Text x y (Some f)]
    /\ (0 <= size - (b2 - b0) - 2 * x <= 1)%Z
    /\ y = ((size - (b3 - b1)) / 2 - 2)%Z.
Proof.
  unfold draw_centered, bind.
  destruct (load_font P (font_size_of P size)) as [e|f]; [discriminate|].
  destruct (textbbox P f) as [[[[b0 b1] b2] b3]|] eqn:Hb; [|discriminate].
  unfold call. destruct (text P _ _ (Some f)); [|discriminate].
  intros [= <-].
  exists f, b0, b1, b2, b3, ((size - (b2 - b0)) / 2)%Z,
    ((size - (b3 - b1)) / 2 - 2)%Z.
  repeat split; try reflexivity; try exact Hb.
  - pose proof (Z.div_mod (size - (b2 - b0)) 2 ltac:(lia)).
    pose proof (Z.mod_pos_bound (size - (b2 - b0)) 2 ltac:(lia)). lia.
  - pose proof (Z.div_mod (size - (b2 - b0)) 2 ltac:(lia)).
    pose proof (Z.mod_pos_bound (size - (b2 - b0)) 2 ltac:(lia)). lia.
Qed.

(** The position for the default font of [no_bbox_pillow]'s sibling in
    which the box of the glyph is 6 by 9. *)
Lemma draw_centered_position_witness :
  exists f b0 b1 b2 b3 x y,
    textbbox (pillow_without "") f = Some (b0, b1, b2, b3)
    /\ drawn (draw (Text 5 1 (Some DefaultFont)) (canvas 16))
       = drawn (canvas 16) ++ [Text x y (Some f)]
    /\ (0 <= 16 - (b2 - b0) - 2 * x <= 1)%Z
    /\ y = ((16 - (b3 - b1)) / 2 - 2)%Z.
Proof.
  apply (draw_centered_position (pillow_without "") 16 (canvas 16)).
  reflexivity.
Defined.

(** An icon that is written has the size asked for and holds the
    rounded rectangle over the whole canvas, of radius [size // 5], and
    one glyph on it; the call writes that one file under the name asked
    for and prints one line. *)
Theorem create_icon_written
    (P : pillow) (size : Z) (filename : string) (w w' : world) :
  create_icon P size filename w = Returned w' ->
  exists img x y f,
    files w' = files w ++ [(filename, img)]
    /\ console w' = console w ++ ["Created " ++ filename]%string
    /\ img_size img = size
    /\ drawn img = [RoundedRectangle 0 0 (size - 1) (size - 1) (size / 5);
                    Text x y f].
Proof.
  unfold create_icon, background, bind, call.
  destruct (new_image P size); [|discriminate].
  destruct (rounded_rectangle P size); [|discriminate]. cbn [ret].
  rewrite glyph_cases.
  destruct (draw_centered P size (canvas size)) as [e|img] eqn:E.
  - destruct (text P (size / 4) (size / 4) None); [|discriminate].
    unfold save_and_print. destruct (save P filename); [|discriminate].
    intros [= <-]. cbn.
    exists (draw (Text (size / 4) (size / 4) None) (canvas size)),
      (size / 4)%Z, (size / 4)%Z, None.
    repeat split.
  - destruct (draw_centered_shape P size (canvas size) img E)
      as (x & y & f & ->).
    unfold save_and_print. cbn [ret]. destruct (save P filename); [|discriminate].
    intros [= <-].
    exists (draw (Text x y (Some f)) (canvas size)), x, y, (Some f).
    cbn. auto.
Qed.

(** The icon written where the glyph cannot be measured. *)
Lemma create_icon_written_witness :
  exists img x y f,
    files (mkWorld [("icon16.png", draw (Text 4 4 None) (canvas 16))]
             ["Created icon16.png"])
    = files empty_world ++ [("icon16.png", img)]
    /\ console (mkWorld [("icon16.png", draw (Text 4 4 None) (canvas 16))]
                  ["Created icon16.png"])
       = console empty_world ++ ["Created " ++ "icon16.png"]%string
    /\ img_size img = 16%Z
    /\ drawn img = [RoundedRectangle 0 0 (16 - 1) (16 - 1) (16 / 5);
                    Text x y f].
Proof.
  apply (create_icon_written no_bbox_pillow 16 "icon16.png" empty_world).
  reflexivity.
Defined.

(** Whatever happens, the files written by the loop over the sizes are
    those of the first sizes of the list, in the order of the list: of
    all the sizes when the loop returns, of the sizes before the failing
    one when an exception ends it. *)
Theorem for_sizes_writes_a_prefix (P : pillow) (szs : list Z) (w : world) :
  match for_sizes P szs w with
  | Returned w' =>
      map fst (files w') = map fst (files w) ++ map icon_name szs
  | Propagated _ w' =>
      exists k, (k < List.length szs)%nat
                /\ map fst (files w')
                   = map fst (files w) ++ map icon_name (firstn k szs)
  end.
Proof.
  revert w; induction szs as [|s szs IH]; intros w; cbn [for_sizes].
  - cbn. rewrite app_nil_r. reflexivity.
  - destruct (create_icon P s (icon_name s) w) as [w1|e w1] eqn:E.
    + destruct (create_icon_returned_file P s _ w w1 E) as (img & Hf).
      specialize (IH w1).
      destruct (for_sizes P szs w1) as [w2|e2 w2].
      * rewrite Hf, map_app in IH. cbn [map fst] in IH.
        rewrite <- app_assoc in IH. exact IH.
      * destruct IH as (k & Hk & IHk). exists (S k).
        split; [cbn [List.length]; lia|].
        rewrite Hf, map_app in IHk. cbn [map fst] in IHk.
        rewrite <- app_assoc in IHk. exact IHk.
    + apply create_icon_propagated in E. subst w1.
      exists 0%nat. cbn. rewrite app_nil_r. split; [lia | reflexivity].
Qed.

(** When the canvas can be set up, a glyph can be drawn without a font
    and the file can be written for each of the four sizes, the script
    returns after writing icon16.png, icon32.png, icon48.png and
    icon128.png in this order and printing one line for each and the
    closing line. *)
Theorem main_writes_four_icons (P : pillow) (w : world) :
  (forall size, In size sizes ->
     new_image P size = true
     /\ rounded_rectangle P size = true
     /\ text P (size / 4) (size / 4) None = true
     /\ save P (icon_name size) = true) ->
  exists w',
    main P w = Returned w'
    /\ map fst (files w')
       = map fst (files w)
         ++ ["icon16.png"; "icon32.png"; "icon48.png"; "icon128.png"]
    /\ console w'
       = console w
         ++ ["Created icon16.png"; "Created icon32.png";
             "Created icon48.png"; "Created icon128.png";
             "All icons created! Remove the old .svg files and reload the extension."].
Proof.
  intros H.
  assert (Hone : forall size w0, In size sizes ->
            exists img,
              create_icon P size (icon_name size) w0
              = Returned (mkWorld (files w0 ++ [(icon_name size, img)])
                            (console w0
                             ++ ["Created " ++ icon_name size]%string))).
  { intros size w0 Hin. destruct (H size Hin) as (Hn & Hr & Ht & Hs).
    unfold create_icon, background, bind, call. rewrite Hn, Hr. cbn [ret].
    rewrite glyph_cases, Ht. unfold save_and_print. rewrite Hs.
    destruct (draw_centered P size (canvas size)); cbn [ret];
      eexists; reflexivity. }
  assert (I1 : In 16%Z sizes) by (cbn; auto).
  assert (I2 : In 32%Z sizes) by (cbn; auto).
  assert (I3 : In 48%Z sizes) by (cbn; auto).
  assert (I4 : In 128%Z sizes) by (cbn; auto).
  unfold main, sizes. cbn [for_sizes].
  destruct (Hone 16%Z w I1) as [i1 E1]. rewrite E1.
  match goal with |- context [create_icon P 32 _ ?w0] =>
    destruct (Hone 32%Z w0 I2) as [i2 E2]; rewrite E2 end.
  match goal with |- context [create_icon P 48 _ ?w0] =>
    destruct (Hone 48%Z w0 I3) as [i3 E3]; rewrite E3 end.
  match goal with |- context [create_icon P 128 _ ?w0] =>
    destruct (Hone 128%Z w0 I4) as [i4 E4]; rewrite E4 end.
  eexists. split; [reflexivity|]. cbn [files console].
  rewrite !map_app, <- !app_assoc. split; reflexivity.
Qed.

(** The run where only the default font can be loaded. *)
Lemma main_writes_four_icons_witness :
  exists w',
    main (pillow_without "") empty_world = Returned w'
    /\ map fst (files w')
       = map fst (files empty_world)
         ++ ["icon16.png"; "icon32.png"; "icon48.png"; "icon128.png"]
    /\ console w'
       = console empty_world
         ++ ["Created icon16.png"; "Created icon32.png";
             "Created icon48.png"; "Created icon128.png";
             "All icons created! Remove the old .svg files and reload the extension."].
Proof.
  apply (main_writes_four_icons (pillow_without "") empty_world).
  intros size [<-|[<-|[<-|[<-|[]]]]]; repeat split.
Defined.

End IconOutput.

(** ** Stylesheets without markers *)

Section UnmarkedStylesheets.

(** [extract_clean_css] on a stylesheet without markers, a header comment
    and a rule on three lines. *)
Lemma extract_clean_css_identity_witness :
  ExtractCleanCss.extract_clean_css
    (line "/*RETRO*/" ++ line ".retro {" ++ line "  color: red;" ++ "}")
  = (line "/*RETRO*/" ++ line ".retro {" ++ line "  color: red;" ++ "}")%string.
Proof.
  apply (extract_clean_css_identity
           (line "/*RETRO*/" ++ line ".retro {" ++ line "  color: red;"
            ++ "}")).
  reflexivity.
Defined.

(** [clean_css] on a stylesheet without markers that ends with a
    selector line: the line is in the buffer, not in the output. *)
Lemma clean_css_marker_free_witness :
  CleanCss.clean_css [line ".a { color: red; }"; line ".b,"]
  ++ CleanCss.current_selector_lines
       (CleanCss.loop CleanCss.init [line ".a { color: red; }"; line ".b,"])
  = [line ".a { color: red; }"; line ".b,"].
Proof.
  apply (clean_css_marker_free [line ".a { color: red; }"; line ".b,"]).
  reflexivity.
Defined.

End UnmarkedStylesheets.

(** ** The last lines of [create_clean_css] *)

Section CreateFinalFlush.

Import CreateCleanCss.

(** The block after the loop of [create_clean_css], which adds the lines
    left in [current_block_lines] when no block is being skipped, never
    adds a line: outside a skip the buffer is empty after every turn of
    the loop, so the output is what the loop itself wrote. *)
Theorem create_final_flush_adds_nothing (lines : list string) :
  filter_lines lines = cleaned_lines (loop init lines)
  /\ (skip_block (loop init lines) = false ->
      current_block_lines (loop init lines) = []).
Proof.
  assert (Hi : buffer_inv init) by (intros _; reflexivity).
  destruct (create_loop_mask lines init Hi) as [Hinv _].
  split; [apply create_finish, Hinv | exact Hinv].
Qed.

End CreateFinalFlush.

(** ** A removed block among lines that are kept *)

Section BlockAmongKeptLines.

Lemma extract_loop_clean_app (pre : list string) :
  forall (st : ExtractCleanCss.state) (more : list string),
  ExtractCleanCss.skip_until_next_section st = false ->
  Forall (fun l => ExtractCleanCss.is_skin_section (strip l) = false
                   /\ triggers_skip (strip l) = false) pre ->
  ExtractCleanCss.loop st (pre ++ more)
  = ExtractCleanCss.loop
      (ExtractCleanCss.mkState (ExtractCleanCss.keep_lines st ++ pre) false)
      more.
Proof.
  induction pre as [|l pre IH]; intros st more Hs Hf.
  - rewrite app_nil_r. destruct st; cbn in *; subst; reflexivity.
  - inversion Hf as [|? ? [Hk Ht] Hpre]; subst.
    cbn [app]. rewrite extract_loop_cons, Ht, (enter_clean st _ Hs Hk).
    unfold keep_or_drop. rewrite Hs. cbn [negb].
    rewrite IH by (exact Hs || exact Hpre).
    cbn [ExtractCleanCss.append_line ExtractCleanCss.keep_lines].
    rewrite <- app_assoc. reflexivity.
Qed.

(** In [extract_clean_css], among lines without markers, a block whose
    first line starts a brace-counted skip and holds no skin-section
    word is removed as a whole and nothing else: the lines before it
    and after it are written, and the block ends with the first line
    after which the brace counter, counted from 0 on the first line of
    the block, is at zero or below, however deep the braces inside. *)
Theorem extract_block_removed_whole
    (pre init : list string) (last : string) (rest : list string) :
  Forall (fun l => ExtractCleanCss.is_skin_section (strip l) = false
                   /\ triggers_skip (strip l) = false) pre ->
  triggers_skip (strip (hd last init)) = true ->
  ExtractCleanCss.is_skin_section (strip (hd last init)) = false ->
  stays_open 0 init = true ->
  (running 0 init + brace_delta last <= 0)%Z ->
  Forall (fun l => ExtractCleanCss.is_skin_section (strip l) = false
                   /\ triggers_skip (strip l) = false) rest ->
  ExtractCleanCss.filter_lines (pre ++ init ++ last :: rest) = pre ++ rest.
Proof.
  intros Hpre Ht Hk Ho Hc Hrest. unfold ExtractCleanCss.filter_lines.
  rewrite extract_loop_clean_app by (reflexivity || exact Hpre).
  rewrite extract_loop_block_skipped by assumption.
  rewrite enter_clean by (reflexivity || exact Hk).
  rewrite extract_loop_clean by (reflexivity || exact Hrest).
  reflexivity.
Qed.

(** A skin block with an inner pair of braces between two rules. *)
Lemma extract_block_removed_whole_witness :
  ExtractCleanCss.filter_lines
    (["p { margin: 0; }"]
     ++ [".nativemimic-skin-card {"; "  @media (min-width: 10px) {";
         "    color: red;"; "  }"; "  color: blue;"]
     ++ "}" :: [".keep { color: green; }"])
  = ["p { margin: 0; }"] ++ [".keep { color: green; }"].
Proof.
  apply (extract_block_removed_whole ["p { margin: 0; }"]
           [".nativemimic-skin-card {"; "  @media (min-width: 10px) {";
            "    color: red;"; "  }"; "  color: blue;"] "}"
           [".keep { color: green; }"]).
  - repeat constructor.
  - reflexivity.
  - reflexivity.
  - reflexivity.
  - vm_compute. discriminate.
  - repeat constructor.
Defined.

Lemma clean_loop_plain (ls : list string) :
  forall st : CleanCss.state,
  CleanCss.skip_block st = false ->
  CleanCss.current_selector_lines st = [] ->
  Forall (fun l => CleanCss.is_selector_line (strip l) = false) ls ->
  CleanCss.loop st ls
  = CleanCss.mkState (CleanCss.cleaned_lines st ++ ls) false
      (CleanCss.brace_count st) [].
Proof.
  induction ls as [|l ls IH]; intros st Hs Hc Hf.
  - rewrite app_nil_r. destruct st; cbn in *; subst; reflexivity.
  - inversion Hf as [|? ? Hl Hls]; subst.
    rewrite clean_loop_cons, clean_step_plain by assumption.
    rewrite IH by (reflexivity || exact Hls). cbn.
    rewrite Hc, <- app_assoc. reflexivity.
Qed.

(** In [clean_css], among lines that are no selector lines, a block is
    removed as a whole and nothing else when its selector lines pass the
    selector test, the text gathered from them matches a removal pattern
    and the counter, set to 1 on the line with the opening brace, comes
    to zero or below first on the closing line of the block: the lines
    before and after the block are written. *)
Theorem clean_css_block_removed_whole
    (pre sel : list string) (opening : string) (body : list string)
    (last : string) (rest : list string) :
  Forall (fun l => CleanCss.is_selector_line (strip l) = false) pre ->
  Forall (fun l => CleanCss.is_selector_line (strip l) = true
                   /\ contains "{" (strip l) = false) sel ->
  CleanCss.is_selector_line (strip opening) = true ->
  contains "{" (strip opening) = true ->
  CleanCss.should_remove_selector (join "" (sel ++ [opening])) = true ->
  stays_open 1 body = true ->
  (running 1 body + brace_delta last <= 0)%Z ->
  Forall (fun l => CleanCss.is_selector_line (strip l) = false) rest ->
  CleanCss.clean_css (pre ++ sel ++ opening :: body ++ last :: rest)
  = pre ++ rest.
Proof.
  intros Hpre Hsel Hop Hbr Hrm Ho Hc Hrest. unfold CleanCss.clean_css.
  rewrite clean_loop_app,
    (clean_loop_plain pre CleanCss.init eq_refl eq_refl Hpre).
  cbn [CleanCss.cleaned_lines CleanCss.brace_count CleanCss.init app].
  rewrite clean_loop_app,
    (clean_loop_pending sel (CleanCss.mkState pre false 0 []) eq_refl Hsel).
  cbn [CleanCss.current_selector_lines CleanCss.cleaned_lines
       CleanCss.brace_count app].
  rewrite clean_loop_cons, clean_step_opening by (reflexivity || assumption).
  cbn [CleanCss.current_selector_lines CleanCss.cleaned_lines
       CleanCss.brace_count app]. rewrite Hrm.
  rewrite (clean_loop_skip_close (CleanCss.mkState pre true 1 []) body last
             rest eq_refl Ho Hc).
  cbn [CleanCss.current_selector_lines CleanCss.cleaned_lines].
  rewrite (clean_loop_plain rest (CleanCss.mkState pre false 0 []) eq_refl
             eq_refl Hrest).
  reflexivity.
Qed.

(** A skin block with a selector on two lines and an inner pair of
    braces, between two rules. *)
Lemma clean_css_block_removed_whole_witness :
  CleanCss.clean_css
    ([line "p { margin: 0; }"]
     ++ [line ".nativemimic-skin-grid .nativemimic-item,"]
     ++ line ".nativemimic-card {"
        :: [line "  @media (min-width: 10px) {"; line "    color: red;";
            line "  }"]
     ++ line "}" :: [line "q { margin: 0; }"])
  = [line "p { margin: 0; }"] ++ [line "q { margin: 0; }"].
Proof.
  apply (clean_css_block_removed_whole [line "p { margin: 0; }"]
           [line ".nativemimic-skin-grid .nativemimic-item,"]
           (line ".nativemimic-card {")
           [line "  @media (min-width: 10px) {"; line "    color: red;";
            line "  }"]
           (line "}") [line "q { margin: 0; }"]); try reflexivity.
  - repeat constructor.
  - repeat constructor.
  - repeat constructor.
Defined.

End BlockAmongKeptLines.
